(** * cpugov: the privileged governor daemon

    A shallow embedding of [daemon/cpugov_daemon.py], the D-Bus system
    service that brokers writes to the kernel's cpufreq governor files,
    and the properties of its operations.

    Layout:
    - [PyStr]  the Python string operations the daemon calls
               ([str.strip], [str.split], [str.startswith], [int], ...);
    - [OsPath] [os.path.join], [os.path.basename] and the glob pattern;
    - the world the daemon runs in (sysfs files, the persisted record,
      the polkit authority) and a state-and-exception monad over it;
    - the daemon's methods, translated one by one;
    - the properties. *)

From Stdlib Require Import Ascii String ZArith Lia SpecFloat Sorted.
From stdpp Require Import base strings list gmap.


Local Open Scope Z_scope.

(** ** Python strings

    A Python [str] is modelled as a [string] whose characters are the code
    points below 256. *)
Module PyStr.

Definition LF : ascii := ascii_of_nat 10.
Definition CR : ascii := ascii_of_nat 13.

(** [str.isspace] on one code point: the ASCII white space of CPython's
    table (9-13, 28-32) and the two Latin-1 ones (0x85, 0xA0). *)
Definition isspace (c : ascii) : bool :=
  let n := Z.of_N (N_of_ascii c) in
  ((9 <=? n) && (n <=? 13)) || ((28 <=? n) && (n <=? 32))
  || (n =? 133) || (n =? 160).

Definition isdigit (c : ascii) : bool :=
  let n := Z.of_N (N_of_ascii c) in (48 <=? n) && (n <=? 57).

Definition is_empty (s : string) : bool :=
  match s with EmptyString => true | String _ _ => false end.

Fixpoint lstrip (s : string) : string :=
  match s with
  | EmptyString => EmptyString
  | String c s' => if isspace c then lstrip s' else s
  end.

Fixpoint rstrip (s : string) : string :=
  match s with
  | EmptyString => EmptyString
  | String c s' =>
      let r := rstrip s' in
      if is_empty r && isspace c then EmptyString else String c r
  end.

(** [s.strip()] *)
Definition strip (s : string) : string := lstrip (rstrip s).

(** [s.split()] with no separator: the maximal runs of characters that
    are not white space; [cur] is the run being read. *)
Fixpoint split_go (cur s : string) : list string :=
  match s with
  | EmptyString => if is_empty cur then [] else [cur]
  | String c s' =>
      if isspace c
      then (if is_empty cur then split_go EmptyString s'
            else cur :: split_go EmptyString s')
      else split_go (cur +:+ String c EmptyString) s'
  end.

Definition split (s : string) : list string := split_go EmptyString s.

(** [sep.join(l)] *)
Definition join (sep : string) (l : list string) : string :=
  String.concat sep l.

(** [s.startswith(p)] *)
Definition startswith (s p : string) : bool := String.prefix p s.

(** [s.split(sep, 1)] for a one-character separator: [[s]] when [sep]
    does not occur, else the text before and after its first
    occurrence. *)
Fixpoint split_once (sep : ascii) (s : string) : list string :=
  match s with
  | EmptyString => [EmptyString]
  | String c s' =>
      if Ascii.eqb c sep then [EmptyString; s']
      else match split_once sep s' with
           | [h] => [String c h]
           | h :: t => String c h :: t
           | [] => []
           end
  end.

(** [s[n:]] *)
Fixpoint slice_from (n : nat) (s : string) : string :=
  match n, s with
  | O, _ => s
  | S n', String _ s' => slice_from n' s'
  | S _, EmptyString => EmptyString
  end.

(** Text-mode reading ([open(path, "r")] with the default [newline]):
    ["\r\n"] and a lone ["\r"] are read as ["\n"]. *)
Fixpoint universal_newlines (s : string) : string :=
  match s with
  | EmptyString => EmptyString
  | String c s' =>
      if Ascii.eqb c CR then
        match s' with
        | String c' s'' =>
            if Ascii.eqb c' LF then String LF (universal_newlines s'')
            else String LF (universal_newlines s')
        | EmptyString => String LF EmptyString
        end
      else String c (universal_newlines s')
  end.

(** Iterating over a text file: the lines, each with its ["\n"]. *)
Fixpoint lines_go (cur s : string) : list string :=
  match s with
  | EmptyString => if is_empty cur then [] else [cur]
  | String c s' =>
      if Ascii.eqb c LF
      then (cur +:+ String LF EmptyString) :: lines_go EmptyString s'
      else lines_go (cur +:+ String c EmptyString) s'
  end.

Definition lines (s : string) : list string := lines_go EmptyString s.

(** The white space [int] skips around the number. It is not that of
    [str.isspace]: a code point below 127 is handed to the parser as it
    is, which skips the C locale's white space (9-13 and 32) and so
    refuses the separators 28-31; of the others, the ones [str.isspace]
    accepts (0x85, 0xA0) are turned into a blank first. *)
Definition int_isspace (c : ascii) : bool :=
  let n := Z.of_N (N_of_ascii c) in
  ((9 <=? n) && (n <=? 13)) || (n =? 32) || (n =? 133) || (n =? 160).

Fixpoint int_lstrip (s : string) : string :=
  match s with
  | EmptyString => EmptyString
  | String c s' => if int_isspace c then int_lstrip s' else s
  end.

Fixpoint int_rstrip (s : string) : string :=
  match s with
  | EmptyString => EmptyString
  | String c s' =>
      let r := int_rstrip s' in
      if is_empty r && int_isspace c then EmptyString else String c r
  end.

(** [sys.int_max_str_digits], at its default. *)
Definition int_max_str_digits : Z := 4300.

(** [int(s)] in base 10: decimal digits, single underscores between
    digits, an optional sign, white space around, and no more digits
    than [int_max_str_digits]; [None] stands for [ValueError]. [acc] is
    the number read so far and [count] how many digits it took. *)
Fixpoint int_digits (acc count : Z) (after_digit : bool) (s : string)
  : option Z :=
  match s with
  | EmptyString =>
      if after_digit && (count <=? int_max_str_digits) then Some acc else None
  | String c s' =>
      if isdigit c
      then int_digits (10 * acc + (Z.of_N (N_of_ascii c) - 48)) (count + 1)
                      true s'
      else if Ascii.eqb c "_" && after_digit
           then int_digits acc count false s'
           else None
  end.

Definition int (s : string) : option Z :=
  match int_lstrip (int_rstrip s) with
  | String c t =>
      if Ascii.eqb c "-" then Z.opp <$> int_digits 0 0 false t
      else if Ascii.eqb c "+" then int_digits 0 0 false t
      else int_digits 0 0 false (String c t)
  | EmptyString => None
  end.

End PyStr.

(** ** Paths *)
Module OsPath.

Definition SEP : ascii := "/".

Fixpoint endswith_sep (s : string) : bool :=
  match s with
  | EmptyString => false
  | String c EmptyString => Ascii.eqb c SEP
  | String _ s' => endswith_sep s'
  end.

Fixpoint has_sep (s : string) : bool :=
  match s with
  | EmptyString => false
  | String c s' => Ascii.eqb c SEP || has_sep s'
  end.

(** [os.path.join(a, b)] of [posixpath] *)
Definition join (a b : string) : string :=
  match b with
  | String c _ =>
      if Ascii.eqb c SEP then b
      else if PyStr.is_empty a || endswith_sep a then a +:+ b
      else a +:+ String SEP b
  | EmptyString =>
      if PyStr.is_empty a || endswith_sep a then a
      else a +:+ String SEP EmptyString
  end.

(** [os.path.basename(p)]: what follows the last slash. *)
Fixpoint basename (p : string) : string :=
  match p with
  | EmptyString => EmptyString
  | String c p' =>
      if has_sep p' then basename p'
      else if Ascii.eqb c SEP then p' else p
  end.

(** [fnmatch] of a name against ["cpu[0-9]*"]. *)
Definition match_cpu_pattern (name : string) : bool :=
  match name with
  | String c1 (String c2 (String c3 (String d _))) =>
      Ascii.eqb c1 "c" && Ascii.eqb c2 "p" && Ascii.eqb c3 "u"
      && PyStr.isdigit d
  | _ => false
  end.

End OsPath.

(** ** Values, exceptions and the world *)

(** What [json.load] returns: a Python value. JSON [null] decodes to
    [PyNone], an object to a [PyDict] (its items, keys distinct). *)
#[local] Set Warnings "-register-all".
Inductive pyval : Type :=
| PyNone
| PyBool (b : bool)
| PyInt (z : Z)
| PyFloat (f : spec_float)
| PyStr (s : string)
| PyList (l : list pyval)
| PyDict (items : list (string * pyval)).
#[local] Set Warnings "register-all".

(** Why [json.load] fails on a text that is not refused as malformed
    JSON: the bytes are not text in the file's encoding ([f.read()]
    raises [UnicodeDecodeError]), an integer literal has more digits than
    [int] accepts (a plain [ValueError]), or the nesting is deeper than
    the decoder's recursion ([RecursionError]). *)
Inductive decode_failure : Type :=
| NotText
| IntegerTooLong
| NestedTooDeep.

(** The state of [CONFIG_PATH] as [_load_saved_governor] meets it. *)
Inductive config_file : Type :=
| CfgUnreadable                (* [open] raises [OSError]: no file, I/O error *)
| CfgMalformed                 (* [json.load] raises [JSONDecodeError] *)
| CfgUndecodable (why : decode_failure)
                               (* [json.load] raises another error *)
| CfgJson (doc : pyval).       (* [json.load] returns [doc] *)

Inductive exn : Type :=
| DBusException (name message : string)
| OSError
| JSONDecodeError
| UnicodeDecodeError
| RecursionError
| AttributeError
| IndexError
| ValueError
| OverflowError.

(** The exception [json.load] raises for a [decode_failure]. None of
    them is an [OSError] or a [JSONDecodeError]. *)
Definition decode_error (why : decode_failure) : exn :=
  match why with
  | NotText => UnicodeDecodeError
  | IntegerTooLong => ValueError
  | NestedTooDeep => RecursionError
  end.

(** What the polkit authority does with a [CheckAuthorization] call: it
    replies, and the first component of the reply says whether the
    subject is authorized; or the call fails on the bus (the authority is
    not running, no reply arrives in time) and raises a [DBusException]
    under the bus's error name. *)
Inductive authority_reply : Type :=
| Answer (is_authorized : bool)
| BusError (name message : string).

(** What happens when the daemon writes the persisted record:
    - [SaveOk]: the text is written;
    - [SaveFailsAtOpen]: [os.makedirs] or [open(CONFIG_PATH, "w")] raises
      [OSError], and the file is as it was;
    - [SaveFailsAtWrite whole]: [open] has truncated the file, and writing
      or closing raises [OSError]; [whole] says whether the text reached
      the file all the same. *)
Inductive save_outcome : Type :=
| SaveOk
| SaveFailsAtOpen
| SaveFailsAtWrite (whole : bool).

Inductive event : Type :=
| EvGlob (pattern : string)
| EvExists (path : string)
| EvRead (path : string)
| EvWrite (path value : string) (ok : bool)
| EvLoadConfig
| EvSaveConfig (governor : string) (ok : bool)
| EvCheckAuthorization (sender action : string) (is_authorized : bool)
| EvAuthorityError (sender action name : string)
| EvGovernorChanged (governor : string).

#[global] Instance event_eq_dec : EqDecision event.
Proof. solve_decision. Defined.

(** The daemon's environment.
    - [cpu_entries]: the names in [SYSFS_CPU_BASE], in the order the
      directory is listed;
    - [files]: the text files that can be read (sysfs attributes,
      [/proc/cpuinfo]), by path; the persisted record is kept apart;
    - [write_fails]: the paths on which [open(path, "w")] raises [OSError];
    - [config], [config_write]: the persisted record, and what happens
      when it is written;
    - [authority]: what the polkit authority does with a check, per bus
      name and action;
    - [trace]: what the daemon did, oldest first. *)
Record World : Type := mkWorld {
  cpu_entries : list string;
  files : gmap string string;
  write_fails : string -> bool;
  config : config_file;
  config_write : save_outcome;
  authority : string -> string -> authority_reply;
  trace : list event
}.

(** Writing the persisted record raises [OSError]. *)
Definition config_write_fails (w : World) : bool :=
  match config_write w with SaveOk => false | _ => true end.

(** The authority replies, and grants. *)
Definition polkit (w : World) (sender action_id : string) : bool :=
  match authority w sender action_id with
  | Answer is_authorized => is_authorized
  | BusError _ _ => false
  end.

Definition with_files (fs : gmap string string) (w : World) : World :=
  mkWorld (cpu_entries w) fs (write_fails w) (config w)
          (config_write w) (authority w) (trace w).

Definition set_file (p v : string) (w : World) : World :=
  with_files (<[p := v]> (files w)) w.

Definition set_config (c : config_file) (w : World) : World :=
  mkWorld (cpu_entries w) (files w) (write_fails w) c
          (config_write w) (authority w) (trace w).

Definition log_all (evs : list event) (w : World) : World :=
  mkWorld (cpu_entries w) (files w) (write_fails w) (config w)
          (config_write w) (authority w) (trace w ++ evs).

Definition log (e : event) (w : World) : World := log_all [e] w.

(** ** The monad: state and exceptions

    A raised exception keeps the world as it was when raised: what was
    written stays written. *)
Inductive outcome (A : Type) : Type :=
| Return (a : A)
| Raise (e : exn).
Arguments Return {A} a.
Arguments Raise {A} e.

Definition M (A : Type) : Type := World -> outcome A * World.

Definition ret {A} (a : A) : M A := fun w => (Return a, w).

Definition raise {A} (e : exn) : M A := fun w => (Raise e, w).

Definition bind {A B} (m : M A) (k : A -> M B) : M B :=
  fun w => match m w with
           | (Return a, w') => k a w'
           | (Raise e, w') => (Raise e, w')
           end.

(** [try: m  except <catches>: handler] *)
Definition try_except {A} (m : M A) (catches : exn -> bool) (handler : M A)
  : M A :=
  fun w => match m w with
           | (Raise e, w') => if catches e then handler w' else (Raise e, w')
           | r => r
           end.

Declare Scope py_scope.
Delimit Scope py_scope with py.
Notation "x <- m ;; k" := (bind m (fun x => k))
  (at level 100, m at next level, right associativity) : py_scope.
Notation "m ;; k" := (bind m (fun _ => k))
  (at level 100, right associativity) : py_scope.
Local Open Scope py_scope.

(** [for x in l: body(x)] *)
Fixpoint for_each {A} (l : list A) (body : A -> M unit) : M unit :=
  match l with
  | [] => ret tt
  | x :: l' => body x ;; for_each l' body
  end.

(** [[f(x) for x in l]], left to right *)
Fixpoint map_M {A B} (f : A -> M B) (l : list A) : M (list B) :=
  match l with
  | [] => ret []
  | x :: l' => y <- f x ;; ys <- map_M f l' ;; ret (y :: ys)
  end.

(** [[x for x in l if p(x)]], left to right *)
Fixpoint filter_M {A} (p : A -> M bool) (l : list A) : M (list A) :=
  match l with
  | [] => ret []
  | x :: l' =>
      b <- p x ;; xs <- filter_M p l' ;; ret (if b then x :: xs else xs)
  end.

Definition is_OSError (e : exn) : bool :=
  match e with OSError => true | _ => false end.

Definition is_OSError_or_JSONDecodeError (e : exn) : bool :=
  match e with OSError | JSONDecodeError => true | _ => false end.

(** ** Python and system primitives *)

Definition of_option {A} (o : option A) (e : exn) : M A :=
  match o with Some a => ret a | None => raise e end.

(** [bool(v)] *)
Definition truthy (v : pyval) : bool :=
  match v with
  | PyNone => false
  | PyBool b => b
  | PyInt z => negb (z =? 0)
  | PyFloat (S754_zero _) => false
  | PyFloat _ => true
  | PyStr s => negb (PyStr.is_empty s)
  | PyList l => match l with [] => false | _ => true end
  | PyDict items => match items with [] => false | _ => true end
  end.

(** [v in l] for a list [l] of [str]: only a [str] equals a [str]. *)
Definition py_in (v : pyval) (l : list string) : bool :=
  match v with
  | PyStr s => bool_decide (s ∈ l)
  | _ => false
  end.

(** [d.get(key)] on a [dict]: the value, or [None]. *)
Fixpoint dict_get (items : list (string * pyval)) (key : string) : pyval :=
  match items with
  | [] => PyNone
  | (k, v) :: items' => if String.eqb k key then v else dict_get items' key
  end.

(** [sorted(l, key=...)] once the keys are computed: a stable sort. *)
Fixpoint insert_by_key (x : Z * string) (l : list (Z * string))
  : list (Z * string) :=
  match l with
  | [] => [x]
  | y :: l' => if fst y <? fst x then y :: insert_by_key x l' else x :: l
  end.

Fixpoint sort_by_key (l : list (Z * string)) : list (Z * string) :=
  match l with
  | [] => []
  | x :: l' => insert_by_key x (sort_by_key l')
  end.

(** [sorted(l, key=key)]: the key of every element is computed first, and
    [None] when one of them raises. *)
Definition sorted_by (key : string -> option Z) (l : list string)
  : option (list string) :=
  keyed ← mapM (fun d => k ← key d; Some (k, d)) l;
  Some (snd <$> sort_by_key keyed).

(** [dbus.Int32(n)] *)
Definition dbus_Int32 (n : Z) : M Z :=
  if (- 2 ^ 31 <=? n) && (n <? 2 ^ 31) then ret n else raise OverflowError.

(** [os.path.exists(path)] *)
Definition path_exists (path : string) : M bool :=
  fun w => (Return (bool_decide (is_Some (files w !! path))),
            log (EvExists path) w).

(** [open(path, "r").read()], for a [path] that can name a file (it
    holds no NUL character, as the paths the daemon builds from a
    directory listing) and a file that holds text: such files are what
    [files] records, and on the others [open] raises [OSError]. *)
Definition open_read (path : string) : M string :=
  fun w => match files w !! path with
           | Some content =>
               (Return (PyStr.universal_newlines content), log (EvRead path) w)
           | None => (Raise OSError, log (EvRead path) w)
           end.

(** [open(path, "w").write(value)]; a failed write leaves the file as it
    was. *)
Definition open_write (path value : string) : M unit :=
  fun w => if write_fails w path
           then (Raise OSError, log (EvWrite path value false) w)
           else (Return tt, log (EvWrite path value true) (set_file path value w)).

(** [json.load(open(CONFIG_PATH, "r"))] *)
Definition json_load_config : M pyval :=
  fun w => match config w with
           | CfgUnreadable => (Raise OSError, log EvLoadConfig w)
           | CfgMalformed => (Raise JSONDecodeError, log EvLoadConfig w)
           | CfgUndecodable why => (Raise (decode_error why), log EvLoadConfig w)
           | CfgJson doc => (Return doc, log EvLoadConfig w)
           end.

(** The record that holds [governor]: what the text [json.dump] writes
    for [{"governor": governor}] decodes to. *)
Definition saved_config (governor : string) : config_file :=
  CfgJson (PyDict [("governor", PyStr governor)]).

(** The record once the daemon has tried to write [governor], on a file
    that was [old]. A write that fails after [open] leaves the truncated
    file, empty or with the beginning of the text, which is not JSON. *)
Definition record_after_save (how : save_outcome) (governor : string)
    (old : config_file) : config_file :=
  match how with
  | SaveOk => saved_config governor
  | SaveFailsAtOpen => old
  | SaveFailsAtWrite whole =>
      if whole then saved_config governor else CfgMalformed
  end.

(** [os.makedirs(...)]; [json.dump({"governor": governor}, open(CONFIG_PATH,
    "w"), indent=2)]; [f.write("\n")]; and the file is closed. *)
Definition json_dump_config (governor : string) : M unit :=
  fun w =>
    let w' := set_config (record_after_save (config_write w) governor (config w))
                         w in
    if config_write_fails w
    then (Raise OSError, log (EvSaveConfig governor false) w')
    else (Return tt, log (EvSaveConfig governor true) w').

(** [bus.get_object(...)] and [authority.CheckAuthorization(subject,
    action_id, ...)[0]] *)
Definition CheckAuthorization (sender action_id : string) : M bool :=
  fun w => match authority w sender action_id with
           | Answer is_authorized =>
               (Return is_authorized,
                log (EvCheckAuthorization sender action_id is_authorized) w)
           | BusError name message =>
               (Raise (DBusException name message),
                log (EvAuthorityError sender action_id name) w)
           end.

(** [config.get("governor")]: only a [dict] has [get]. *)
Definition config_get (cfg : pyval) (key : string) : M pyval :=
  match cfg with
  | PyDict items => ret (dict_get items key)
  | _ => raise AttributeError
  end.

(** ** The daemon *)

Definition BUS_NAME := "io.github.serverket.cpugov".
Definition POLKIT_ACTION_SET := "io.github.serverket.cpugov.set-governor".
Definition SYSFS_CPU_BASE := "/sys/devices/system/cpu".
Definition GOVERNOR_PATH := "cpufreq/scaling_governor".
Definition AVAIL_GOVERNORS_PATH := "cpufreq/scaling_available_governors".
Definition CUR_FREQ_PATH := "cpufreq/scaling_cur_freq".
Definition MIN_FREQ_PATH := "cpufreq/cpuinfo_min_freq".
Definition MAX_FREQ_PATH := "cpufreq/cpuinfo_max_freq".
Definition CPU_MODEL_PATH := "/proc/cpuinfo".
Definition CONFIG_PATH := "/var/lib/cpugov/config.json".

Definition ERR_INVALID_GOVERNOR :=
  "io.github.serverket.cpugov.Error.InvalidGovernor".
Definition ERR_NOT_AUTHORIZED :=
  "org.freedesktop.PolicyKit1.Error.NotAuthorized".

Definition CPU_PATTERN := OsPath.join SYSFS_CPU_BASE "cpu[0-9]*".

(** What [glob.glob(CPU_PATTERN)] returns when the directory lists
    [entries]. *)
Definition glob_paths (entries : list string) : list string :=
  OsPath.join SYSFS_CPU_BASE <$> List.filter OsPath.match_cpu_pattern entries.

Definition glob_cpu : M (list string) :=
  fun w => (Return (glob_paths (cpu_entries w)), log (EvGlob CPU_PATTERN) w).

(** [int(os.path.basename(d)[3:])], the sort key; [None] is [ValueError]. *)
Definition cpu_index (d : string) : option Z :=
  PyStr.int (PyStr.slice_from 3 (OsPath.basename d)).

Definition _get_cpu_dirs : M (list string) :=
  paths <- glob_cpu ;;
  dirs <- of_option (sorted_by cpu_index paths) ValueError ;;
  filter_M (fun d => path_exists (OsPath.join d GOVERNOR_PATH)) dirs.

Definition _read_sysfs (path : string) : M string :=
  try_except
    (content <- open_read path ;; ret (PyStr.strip content))
    is_OSError
    (ret "").

Definition _write_sysfs (path value : string) : M unit :=
  open_write path value.

Definition _check_polkit_auth (sender action_id : string) : M unit :=
  is_authorized <- CheckAuthorization sender action_id ;;
  if negb is_authorized
  then raise (DBusException ERR_NOT_AUTHORIZED
                ("Not authorized for action: " +:+ action_id))
  else ret tt.

(** The first line that starts with ["model name"], if any. *)
Definition first_model_line (ls : list string) : option string :=
  List.find (fun line => PyStr.startswith line "model name") ls.

Definition _get_cpu_model : M string :=
  try_except
    (content <- open_read CPU_MODEL_PATH ;;
     match first_model_line (PyStr.lines content) with
     | Some line =>
         match PyStr.split_once ":" line with
         | _ :: value :: _ => ret (PyStr.strip value)
         | _ => raise IndexError
         end
     | None => ret "Unknown"
     end)
    is_OSError
    (ret "Unknown").

Definition _save_governor (governor : string) : M unit :=
  try_except (json_dump_config governor) is_OSError (ret tt).

Definition _load_saved_governor : M pyval :=
  try_except
    (cfg <- json_load_config ;; config_get cfg "governor")
    is_OSError_or_JSONDecodeError
    (ret PyNone).

Definition _restore_governor : M unit :=
  saved <- _load_saved_governor ;;
  if negb (truthy saved) then ret tt else
  cpu_dirs <- _get_cpu_dirs ;;
  match cpu_dirs with
  | [] => ret tt
  | cpu0 :: _ =>
      text <- _read_sysfs (OsPath.join cpu0 AVAIL_GOVERNORS_PATH) ;;
      let available := PyStr.split text in
      if negb (py_in saved available) then ret tt else
      match saved with
      | PyStr governor =>
          for_each cpu_dirs (fun cpu_dir =>
            try_except
              (_write_sysfs (OsPath.join cpu_dir GOVERNOR_PATH) governor)
              is_OSError
              (ret tt))
      | _ => ret tt         (* not a [str]: never [in available] *)
      end
  end.

(** The [GovernorChanged] signal *)
Definition GovernorChanged (governor : string) : M unit :=
  fun w => (Return tt, log (EvGovernorChanged governor) w).

Definition GetGovernor : M string :=
  cpu_dirs <- _get_cpu_dirs ;;
  match cpu_dirs with
  | [] => ret "unknown"
  | cpu0 :: _ => _read_sysfs (OsPath.join cpu0 GOVERNOR_PATH)
  end.

Definition GetAvailableGovernors : M (list string) :=
  cpu_dirs <- _get_cpu_dirs ;;
  match cpu_dirs with
  | [] => ret []
  | cpu0 :: _ =>
      text <- _read_sysfs (OsPath.join cpu0 AVAIL_GOVERNORS_PATH) ;;
      ret (PyStr.split text)
  end.

Definition invalid_governor_message (governor : string)
    (available : list string) : string :=
  "Invalid governor: " +:+ governor +:+ ". "
  +:+ "Available: " +:+ PyStr.join ", " available.

Definition SetGovernor (governor sender : string) : M bool :=
  available <- GetAvailableGovernors ;;
  if negb (bool_decide (governor ∈ available))
  then raise (DBusException ERR_INVALID_GOVERNOR
                (invalid_governor_message governor available))
  else
  _check_polkit_auth sender POLKIT_ACTION_SET ;;
  cpu_dirs <- _get_cpu_dirs ;;
  for_each cpu_dirs (fun cpu_dir =>
    _write_sysfs (OsPath.join cpu_dir GOVERNOR_PATH) governor) ;;
  GovernorChanged governor ;;
  _save_governor governor ;;
  ret true.

Record core_info : Type := mkCore {
  core_name : string;
  core_governor : string;
  cur_freq_khz : string;
  min_freq_khz : string;
  max_freq_khz : string
}.

Record cpu_info : Type := mkInfo {
  info_model : string;
  info_core_count : Z;
  info_online : string;
  info_per_core : list core_info
}.

Definition GetCpuInfo : M cpu_info :=
  cpu_dirs <- _get_cpu_dirs ;;
  let core_count := Z.of_nat (length cpu_dirs) in
  model <- _get_cpu_model ;;
  per_core <- map_M (fun cpu_dir =>
      let name := OsPath.basename cpu_dir in
      core_gov <- _read_sysfs (OsPath.join cpu_dir GOVERNOR_PATH) ;;
      cur_freq <- _read_sysfs (OsPath.join cpu_dir CUR_FREQ_PATH) ;;
      min_freq <- _read_sysfs (OsPath.join cpu_dir MIN_FREQ_PATH) ;;
      max_freq <- _read_sysfs (OsPath.join cpu_dir MAX_FREQ_PATH) ;;
      ret (mkCore name core_gov cur_freq min_freq max_freq)) cpu_dirs ;;
  online_str <- _read_sysfs (OsPath.join SYSFS_CPU_BASE "online") ;;
  count32 <- dbus_Int32 core_count ;;
  ret (mkInfo model count32 online_str per_core).

(** [CPUGovDaemon.__init__], once the bus name is owned *)
Definition daemon_init : M unit := _restore_governor.

(** ** Reading traces *)

Definition is_write (e : event) : bool :=
  match e with EvWrite _ _ _ => true | _ => false end.

Definition is_sysfs_access (e : event) : bool :=
  match e with
  | EvGlob _ | EvExists _ | EvRead _ | EvWrite _ _ _ => true
  | _ => false
  end.

(** The replies of the authority. *)
Definition is_auth (e : event) : bool :=
  match e with EvCheckAuthorization _ _ _ => true | _ => false end.

Definition is_failure (e : event) : bool :=
  match e with
  | EvWrite _ _ false | EvSaveConfig _ false => true
  | _ => false
  end.

(** The sysfs writes attempted, in order. *)
Definition writes (t : list event) : list event := List.filter is_write t.

(** What [run m w] did: the events [m] added to the trace of [w]. *)
Definition events_of {A} (m : M A) (w : World) : list event :=
  drop (length (trace w)) (trace (snd (m w))).

Definition result_of {A} (m : M A) (w : World) : outcome A := fst (m w).

Definition world_after {A} (m : M A) (w : World) : World := snd (m w).


(** ** Vocabulary of the properties *)

(** No character of [s] is white space. *)
Fixpoint no_space (s : string) : bool :=
  match s with
  | EmptyString => true
  | String c s' => negb (PyStr.isspace c) && no_space s'
  end.

Definition NUL : ascii := ascii_of_nat 0.

(** [c in s] *)
Fixpoint contains (c : ascii) (s : string) : bool :=
  match s with
  | EmptyString => false
  | String c' s' => Ascii.eqb c' c || contains c s'
  end.

(** [s in t] *)
Definition substring (s t : string) : Prop :=
  exists pre post, t = pre +:+ s +:+ post.

(** What [_read_sysfs path] returns when the readable files are [fs]. *)
Definition sysfs_text (fs : gmap string string) (path : string) : string :=
  match fs !! path with
  | Some content => PyStr.strip (PyStr.universal_newlines content)
  | None => ""
  end.

Definition governor_file (cpu_dir : string) : string :=
  OsPath.join cpu_dir GOVERNOR_PATH.

(** The files after [value] was written to each of [paths]. *)
Definition write_all (paths : list string) (value : string)
    (fs : gmap string string) : gmap string string :=
  foldl (fun m p => <[p := value]> m) fs paths.


(** The faults of the service's contract, and the one an exception that
    leaves a method is seen as: the two D-Bus error names the daemon
    raises, and an I/O error. *)
Inductive fault : Type :=
| InvalidArgument
| NotAuthorized
| Unavailable
| IOFailure.

Definition fault_of (e : exn) : option fault :=
  match e with
  | DBusException name _ =>
      if String.eqb name ERR_INVALID_GOVERNOR then Some InvalidArgument
      else if String.eqb name ERR_NOT_AUTHORIZED then Some NotAuthorized
      else None
  | OSError => Some IOFailure
  | _ => None
  end.

(** *** The machines of the examples *)

Definition nl (s : string) : string := s +:+ String PyStr.LF EmptyString.

Definition cpu0_governor := "/sys/devices/system/cpu/cpu0/cpufreq/scaling_governor".
Definition cpu1_governor := "/sys/devices/system/cpu/cpu1/cpufreq/scaling_governor".
Definition cpu0_available :=
  "/sys/devices/system/cpu/cpu0/cpufreq/scaling_available_governors".

(** Two cores on [powersave]; the driver offers [performance],
    [powersave] and [schedutil]. *)
Definition two_core_files : gmap string string :=
  <[cpu0_governor := nl "powersave"]>
  (<[cpu1_governor := nl "powersave"]>
  (<[cpu0_available := nl "performance powersave schedutil"]>
  (<[CPU_MODEL_PATH := nl "processor	: 0" +:+ nl "model name	: Example CPU"]> ∅))).

Definition machine (fails : string -> bool) (cfg : config_file)
    (authorized : bool) : World :=
  mkWorld ["cpufreq"; "cpu1"; "cpu0"; "online"] two_core_files fails cfg
          SaveOk (fun _ _ => Answer authorized) [].

Definition never : string -> bool := fun _ => false.

(** The two-core machine with no polkit authority on the bus:
    [get_object] raises the bus's [ServiceUnknown]. *)
Definition SERVICE_UNKNOWN := "org.freedesktop.DBus.Error.ServiceUnknown".

Definition machine_without_authority : World :=
  mkWorld ["cpufreq"; "cpu1"; "cpu0"; "online"] two_core_files never
          (saved_config "powersave") SaveOk
          (fun _ _ => BusError SERVICE_UNKNOWN
             "The name org.freedesktop.PolicyKit1 was not provided")
          [].

(** A machine without cpufreq: no core has a governor file. *)
Definition cpu_online := "/sys/devices/system/cpu/online".

Definition bare_machine (cfg : config_file) : World :=
  mkWorld ["cpu0"; "cpu1"; "online"]
          (<[CPU_MODEL_PATH := nl "model name	: Example CPU"]>
           (<[cpu_online := nl "0-1"]> ∅))
          never cfg SaveOk (fun _ _ => Answer true) [].


(** The two-core machine with a full disk: the record can be opened for
    writing, which empties it, and the write then fails. *)
Definition truncating_machine : World :=
  mkWorld ["cpufreq"; "cpu1"; "cpu0"; "online"] two_core_files never
          (saved_config "powersave") (SaveFailsAtWrite false)
          (fun _ _ => Answer true) [].

(** Three cores listed out of order, beside other entries. *)
Definition cpu2_governor := "/sys/devices/system/cpu/cpu2/cpufreq/scaling_governor".
Definition cpu10_governor := "/sys/devices/system/cpu/cpu10/cpufreq/scaling_governor".

Definition shuffled_machine : World :=
  mkWorld ["cpu10"; "cpuidle"; "cpu2"; "cpu0"; "cpu1"; "possible"]
          (<[cpu10_governor := nl "schedutil"]>
           (<[cpu2_governor := nl "schedutil"]>
           (<[cpu0_governor := nl "schedutil"]> ∅)))
          never CfgUnreadable SaveOk (fun _ _ => Answer true) [].

(** A cpu directory with an entry whose suffix is not a number. *)
Definition stray_machine : World :=
  mkWorld ["cpu0"; "cpu0abc"] (<[cpu0_governor := nl "schedutil"]> ∅)
          never CfgUnreadable SaveOk (fun _ _ => Answer true) [].

(** A cpu directory with an entry that ends in a unit separator (0x1F),
    which [str.isspace] accepts and [int] does not skip. *)
Definition separator_machine : World :=
  mkWorld ["cpu0"; "cpu1" +:+ String (ascii_of_nat 31) ""]
          (<[cpu0_governor := nl "schedutil"]> ∅)
          never CfgUnreadable SaveOk (fun _ _ => Answer true) [].

(** *** The runs of [SetGovernor] *)

Definition is_probe (e : event) : bool :=
  match e with EvGlob _ | EvExists _ | EvRead _ => true | _ => false end.

Definition write_ok (value cpu_dir : string) : event :=
  EvWrite (governor_file cpu_dir) value true.

Definition not_authorized_error : exn :=
  DBusException ERR_NOT_AUTHORIZED
    ("Not authorized for action: " +:+ POLKIT_ACTION_SET).

Definition invalid_governor_error (g : string) (available : list string) : exn :=
  DBusException ERR_INVALID_GOVERNOR (invalid_governor_message g available).

(** The world once [value] is written to the governor file of each of
    [dirs]. *)
Definition applied (value : string) (dirs : list string) (w : World) : World :=
  with_files (write_all (governor_file <$> dirs) value (files w)) w.

(** The world once [_save_governor] has run. *)
Definition saved (g : string) (w : World) : World :=
  set_config (record_after_save (config_write w) g (config w)) w.

(** [SetGovernor_run w g s r w']: the call [SetGovernor(g)] from sender
    [s] in world [w] ends with [r] in world [w']. One constructor per way
    through the method. *)
Inductive SetGovernor_run (w : World) (g s : string)
  : outcome bool -> World -> Prop :=
| SG_enumeration_raises e probes :
    result_of GetAvailableGovernors w = Raise e ->
    Forall (fun ev => is_probe ev = true) probes ->
    SetGovernor_run w g s (Raise e) (log_all probes w)
| SG_invalid available probes :
    result_of GetAvailableGovernors w = Return available ->
    g ∉ available ->
    Forall (fun ev => is_probe ev = true) probes ->
    SetGovernor_run w g s (Raise (invalid_governor_error g available))
      (log_all probes w)
| SG_authority_raises available name message probes :
    result_of GetAvailableGovernors w = Return available ->
    g ∈ available ->
    authority w s POLKIT_ACTION_SET = BusError name message ->
    Forall (fun ev => is_probe ev = true) probes ->
    SetGovernor_run w g s (Raise (DBusException name message))
      (log_all (probes ++ [EvAuthorityError s POLKIT_ACTION_SET name]) w)
| SG_denied available probes :
    result_of GetAvailableGovernors w = Return available ->
    g ∈ available ->
    authority w s POLKIT_ACTION_SET = Answer false ->
    Forall (fun ev => is_probe ev = true) probes ->
    SetGovernor_run w g s (Raise not_authorized_error)
      (log_all (probes ++ [EvCheckAuthorization s POLKIT_ACTION_SET false]) w)
| SG_write_fails available done d rest probes probes' :
    result_of GetAvailableGovernors w = Return available ->
    g ∈ available ->
    polkit w s POLKIT_ACTION_SET = true ->
    result_of _get_cpu_dirs w = Return (done ++ d :: rest) ->
    Forall (fun c => write_fails w (governor_file c) = false) done ->
    write_fails w (governor_file d) = true ->
    Forall (fun ev => is_probe ev = true) probes ->
    Forall (fun ev => is_probe ev = true) probes' ->
    SetGovernor_run w g s (Raise OSError)
      (log_all (probes ++ EvCheckAuthorization s POLKIT_ACTION_SET true
                  :: probes' ++ (write_ok g <$> done)
                  ++ [EvWrite (governor_file d) g false])
         (applied g done w))
| SG_applied available dirs probes probes' :
    result_of GetAvailableGovernors w = Return available ->
    g ∈ available ->
    polkit w s POLKIT_ACTION_SET = true ->
    result_of _get_cpu_dirs w = Return dirs ->
    Forall (fun c => write_fails w (governor_file c) = false) dirs ->
    Forall (fun ev => is_probe ev = true) probes ->
    Forall (fun ev => is_probe ev = true) probes' ->
    SetGovernor_run w g s (Return true)
      (log_all (probes ++ EvCheckAuthorization s POLKIT_ACTION_SET true
                  :: probes' ++ (write_ok g <$> dirs)
                  ++ [EvGovernorChanged g;
                      EvSaveConfig g (negb (config_write_fails w))])
         (saved g (applied g dirs w))).

(** *** Enumeration, restoration and the snapshot *)

(** [d1] does not come after [d2] in the order of the sort key. *)
Definition index_le (d1 d2 : string) : Prop :=
  exists k1 k2, cpu_index d1 = Some k1 /\ cpu_index d2 = Some k2 /\ k1 <= k2.

(** The first and the last character of a string. *)
Definition starts_with_space (s : string) : bool :=
  match s with
  | EmptyString => false
  | String c _ => PyStr.isspace c
  end.

Fixpoint ends_with_space (s : string) : bool :=
  match s with
  | EmptyString => false
  | String c EmptyString => PyStr.isspace c
  | String _ s' => ends_with_space s'
  end.

(** The write the restore loop attempts on [cpu_dir], with its outcome. *)
Definition restore_write (w : World) (value cpu_dir : string) : event :=
  EvWrite (governor_file cpu_dir) value
          (negb (write_fails w (governor_file cpu_dir))).

(** The cores of [dirs] whose governor file can be written. *)
Definition writable (w : World) (dirs : list string) : list string :=
  List.filter (fun d => negb (write_fails w (governor_file d))) dirs.

(** What a restoration may do: load the record, probe, read and write
    sysfs. *)
Definition is_restore_event (e : event) : bool :=
  match e with
  | EvLoadConfig | EvGlob _ | EvExists _ | EvRead _ | EvWrite _ _ _ => true
  | _ => false
  end.

(** The per-core record [GetCpuInfo] builds for [cpu_dir]. *)
Definition core_of (fs : gmap string string) (cpu_dir : string) : core_info :=
  mkCore (OsPath.basename cpu_dir)
         (sysfs_text fs (OsPath.join cpu_dir GOVERNOR_PATH))
         (sysfs_text fs (OsPath.join cpu_dir CUR_FREQ_PATH))
         (sysfs_text fs (OsPath.join cpu_dir MIN_FREQ_PATH))
         (sysfs_text fs (OsPath.join cpu_dir MAX_FREQ_PATH)).

(** The four reads [GetCpuInfo] does for [cpu_dir]. *)
Definition core_reads (cpu_dir : string) : list event :=
  [EvRead (OsPath.join cpu_dir GOVERNOR_PATH);
   EvRead (OsPath.join cpu_dir CUR_FREQ_PATH);
   EvRead (OsPath.join cpu_dir MIN_FREQ_PATH);
   EvRead (OsPath.join cpu_dir MAX_FREQ_PATH)].

(** ** The monad's plumbing *)

#[local] Arguments OsPath.join : simpl never.
#[local] Arguments PyStr.split : simpl never.
#[local] Arguments PyStr.strip : simpl never.
#[local] Arguments String.append : simpl never.

Lemma log_all_nil (w : World) : log_all [] w = w.
Proof. destruct w; unfold log_all; simpl. by rewrite app_nil_r. Qed.

Lemma log_all_app (evs1 evs2 : list event) (w : World) :
  log_all evs2 (log_all evs1 w) = log_all (evs1 ++ evs2) w.
Proof. unfold log_all; simpl. by rewrite app_assoc. Qed.

Lemma log_log_all (e : event) (evs : list event) (w : World) :
  log e (log_all evs w) = log_all (evs ++ [e]) w.
Proof. apply log_all_app. Qed.

Lemma events_of_log_all {A} (m : M A) (w w0 : World) (evs : list event) :
  snd (m w) = log_all evs w0 -> trace w0 = trace w -> events_of m w = evs.
Proof.
  intros Hrun Htr. unfold events_of. rewrite Hrun. simpl.
  rewrite Htr. apply drop_app_length.
Qed.

(** ** What each helper does to the world *)

Lemma filter_M_exists_run (f : string -> string) (l : list string) (w : World) :
  filter_M (fun d => path_exists (f d)) l w
  = (Return (List.filter (fun d => bool_decide (is_Some (files w !! f d))) l),
     log_all ((fun d => EvExists (f d)) <$> l) w).
Proof.
  revert w. induction l as [|d l IH]; intros w.
  - simpl. unfold ret. by rewrite log_all_nil.
  - simpl. unfold bind at 1. unfold path_exists at 1.
    unfold bind at 1. rewrite IH. simpl.
    unfold ret, log. rewrite log_all_app. simpl.
    by destruct (bool_decide _).
Qed.

(** The cores [_get_cpu_dirs] returns: those of the sorted glob whose
    governor file exists. The world only gains the probes in its trace. *)
Lemma get_cpu_dirs_run (w : World) :
  _get_cpu_dirs w =
  match sorted_by cpu_index (glob_paths (cpu_entries w)) with
  | Some dirs =>
      (Return (List.filter
                 (fun d => bool_decide (is_Some (files w !! governor_file d)))
                 dirs),
       log_all (EvGlob CPU_PATTERN :: (EvExists ∘ governor_file <$> dirs)) w)
  | None => (Raise ValueError, log_all [EvGlob CPU_PATTERN] w)
  end.
Proof.
  unfold _get_cpu_dirs, bind, glob_cpu.
  destruct (sorted_by cpu_index (glob_paths (cpu_entries w))) as [dirs|];
    simpl; [|done].
  rewrite (filter_M_exists_run governor_file). unfold log.
  by rewrite log_all_app.
Qed.

(** Which cores are enumerated depends on the directory listing and on
    which files exist, on nothing else. *)
Lemma get_cpu_dirs_cong (w1 w2 : World) :
  cpu_entries w1 = cpu_entries w2 ->
  (forall p, is_Some (files w1 !! p) <-> is_Some (files w2 !! p)) ->
  result_of _get_cpu_dirs w1 = result_of _get_cpu_dirs w2.
Proof.
  intros Hent Hdom. unfold result_of. rewrite !get_cpu_dirs_run, Hent.
  destruct (sorted_by _ _) as [dirs|]; simpl; [|done].
  f_equal. induction dirs as [|d dirs IH]; simpl; [done|].
  rewrite IH. by rewrite (bool_decide_ext _ _ (Hdom (governor_file d))).
Qed.

Lemma read_sysfs_run (path : string) (w : World) :
  _read_sysfs path w = (Return (sysfs_text (files w) path), log (EvRead path) w).
Proof.
  unfold _read_sysfs, try_except, bind, open_read, sysfs_text.
  by destruct (files w !! path).
Qed.

Lemma load_saved_governor_frame (w : World) :
  world_after _load_saved_governor w = log EvLoadConfig w.
Proof.
  unfold world_after, _load_saved_governor, try_except, bind, json_load_config.
  destruct (config w) as [| |why|doc]; simpl; try done.
  - by destruct why.
  - by destruct doc.
Qed.

(** What the load returns, by the state of the record. *)
Lemma load_saved_governor_result (w : World) :
  result_of _load_saved_governor w =
  match config w with
  | CfgUnreadable | CfgMalformed => Return PyNone
  | CfgUndecodable why => Raise (decode_error why)
  | CfgJson (PyDict items) => Return (dict_get items "governor")
  | CfgJson _ => Raise AttributeError
  end.
Proof.
  unfold result_of, _load_saved_governor, try_except, bind, json_load_config.
  destruct (config w) as [| |why|doc]; simpl; try done.
  - by destruct why.
  - by destruct doc.
Qed.

Lemma load_saved_governor_run (w : World) :
  _load_saved_governor w
  = (result_of _load_saved_governor w, log EvLoadConfig w).
Proof.
  rewrite <- load_saved_governor_frame. unfold result_of, world_after.
  by destruct (_load_saved_governor w).
Qed.

Lemma world_after_result {A} (m : M A) (w : World) :
  m w = (result_of m w, world_after m w).
Proof. unfold result_of, world_after. by destruct (m w). Qed.

Lemma get_cpu_dirs_probes (w : World) :
  exists probes, Forall (fun ev => is_probe ev = true) probes
    /\ _get_cpu_dirs w = (result_of _get_cpu_dirs w, log_all probes w).
Proof.
  unfold result_of. rewrite get_cpu_dirs_run.
  destruct (sorted_by _ _) as [dirs|]; simpl;
    (eexists; split; [|reflexivity]).
  - constructor; [done|]. apply Forall_fmap, Forall_forall. by intros.
  - by constructor.
Qed.

Lemma get_cpu_dirs_same_files (w1 w2 : World) :
  cpu_entries w1 = cpu_entries w2 -> files w1 = files w2 ->
  result_of _get_cpu_dirs w1 = result_of _get_cpu_dirs w2.
Proof. intros He Hf. apply get_cpu_dirs_cong; [done|]. by rewrite Hf. Qed.

(** The accepted set: what the first enumerated core offers, nothing when
    no core is enumerated. *)
Lemma GetAvailableGovernors_result (w : World) :
  result_of GetAvailableGovernors w =
  match result_of _get_cpu_dirs w with
  | Return [] => Return []
  | Return (cpu0 :: _) =>
      Return (PyStr.split
                (sysfs_text (files w) (OsPath.join cpu0 AVAIL_GOVERNORS_PATH)))
  | Raise e => Raise e
  end.
Proof.
  unfold result_of at 1. unfold GetAvailableGovernors, bind.
  destruct (get_cpu_dirs_probes w) as (probes & _ & ->).
  destruct (result_of _get_cpu_dirs w) as [[|cpu0 dirs]|e]; try done.
  by rewrite read_sysfs_run.
Qed.

Lemma GetAvailableGovernors_probes (w : World) :
  exists probes, Forall (fun ev => is_probe ev = true) probes
    /\ GetAvailableGovernors w
       = (result_of GetAvailableGovernors w, log_all probes w).
Proof.
  unfold result_of. unfold GetAvailableGovernors, bind.
  destruct (get_cpu_dirs_probes w) as (probes & Hp & ->).
  destruct (result_of _get_cpu_dirs w) as [[|cpu0 dirs]|e];
    try (by exists probes).
  rewrite read_sysfs_run. simpl. unfold ret, log. rewrite log_all_app.
  eexists; split; [|done]. apply Forall_app; split; [done|]. by constructor.
Qed.

Lemma applied_cons (g d : string) (dirs : list string) (w : World) (evs : list event):
  applied g dirs (log_all evs (set_file (governor_file d) g w))
  = log_all evs (applied g (d :: dirs) w).
Proof. reflexivity. Qed.

Lemma write_sysfs_run (path value : string) (w : World) :
  _write_sysfs path value w =
  if write_fails w path
  then (Raise OSError, log (EvWrite path value false) w)
  else (Return tt, log (EvWrite path value true) (set_file path value w)).
Proof. reflexivity. Qed.

(** The apply loop: either every write succeeds, or the loop stops at the
    first core whose write fails. *)
Lemma write_loop_run (g : string) (dirs : list string) (w : World) :
  (Forall (fun c => write_fails w (governor_file c) = false) dirs
   /\ for_each dirs (fun cpu_dir => _write_sysfs (governor_file cpu_dir) g) w
      = (Return tt, log_all (write_ok g <$> dirs) (applied g dirs w)))
  \/ (exists done d rest,
        dirs = done ++ d :: rest
        /\ Forall (fun c => write_fails w (governor_file c) = false) done
        /\ write_fails w (governor_file d) = true
        /\ for_each dirs (fun cpu_dir => _write_sysfs (governor_file cpu_dir) g) w
           = (Raise OSError,
              log_all ((write_ok g <$> done) ++ [EvWrite (governor_file d) g false])
                (applied g done w))).
Proof.
  revert w. induction dirs as [|c dirs IH]; intros w.
  - left. split; [done|]. simpl. unfold ret, applied, with_files. simpl.
    rewrite log_all_nil. by destruct w.
  - simpl. unfold bind. rewrite write_sysfs_run.
    destruct (write_fails w (governor_file c)) eqn:Hc.
    + right. exists [], c, dirs. repeat split; try done.
    + destruct (IH (log (EvWrite (governor_file c) g true)
                      (set_file (governor_file c) g w)))
        as [[Hall ->]|(done & d & rest & -> & Hdone & Hd & ->)].
      * left. split; [by constructor|].
        unfold log. rewrite applied_cons, log_all_app. done.
      * right. exists (c :: done), d, rest. repeat split; try done.
        { by constructor. }
        unfold log. rewrite applied_cons, log_all_app. done.
Qed.

Lemma applied_log_all (g : string) (dirs : list string) (evs : list event) (w : World) :
  applied g dirs (log_all evs w) = log_all evs (applied g dirs w).
Proof. reflexivity. Qed.

Lemma SetGovernor_run_eq (w : World) (g s : string) (r : outcome bool)
    (w1 w2 : World) :
  SetGovernor_run w g s r w1 -> w1 = w2 -> SetGovernor_run w g s r w2.
Proof. by intros H <-. Qed.

Ltac world_eq :=
  unfold saved, applied, set_config, with_files, log, log_all,
    config_write_fails; simpl;
  repeat match goal with H : config_write _ = _ |- _ => rewrite H end;
  simpl; f_equal; repeat rewrite <- app_assoc; reflexivity.

Lemma polkit_granted (w : World) (s a : string) :
  polkit w s a = true <-> authority w s a = Answer true.
Proof.
  unfold polkit. destruct (authority w s a) as [[]|]; split; congruence.
Qed.

Lemma polkit_refused (w : World) (s a : string) :
  authority w s a = Answer false -> polkit w s a = false.
Proof. unfold polkit. by intros ->. Qed.

Lemma SetGovernor_runs (w : World) (g s : string) :
  SetGovernor_run w g s (result_of (SetGovernor g s) w)
                        (world_after (SetGovernor g s) w).
Proof.
  unfold result_of, world_after, SetGovernor, bind.
  destruct (GetAvailableGovernors_probes w) as (probes & Hp & ->).
  destruct (result_of GetAvailableGovernors w) as [available|e] eqn:Hav.
  2: { simpl. by apply SG_enumeration_raises. }
  destruct (bool_decide (g ∈ available)) eqn:Hin; simpl.
  2: { apply bool_decide_eq_false in Hin. by apply SG_invalid. }
  apply bool_decide_eq_true in Hin.
  unfold _check_polkit_auth, bind, CheckAuthorization. simpl.
  destruct (authority w s POLKIT_ACTION_SET) as [[]|name message] eqn:Hauth;
    simpl.
  2: { unfold log. rewrite log_all_app. by apply (SG_denied _ _ _ available). }
  2: { unfold log. rewrite log_all_app.
       by apply (SG_authority_raises _ _ _ available). }
  apply polkit_granted in Hauth.
  unfold log. rewrite log_all_app.
  destruct (get_cpu_dirs_probes
              (log_all (probes ++ [EvCheckAuthorization s POLKIT_ACTION_SET true]) w))
    as (probes' & Hp' & ->).
  rewrite (get_cpu_dirs_same_files (log_all _ w) w) by done.
  destruct (result_of _get_cpu_dirs w) as [dirs|e] eqn:Hdirs.
  2: { rewrite GetAvailableGovernors_result, Hdirs in Hav. done. }
  rewrite log_all_app.
  change (fun cpu_dir => _write_sysfs (OsPath.join cpu_dir GOVERNOR_PATH) g)
    with (fun cpu_dir => _write_sysfs (governor_file cpu_dir) g).
  match goal with |- context [for_each dirs ?body ?w0] =>
    destruct (write_loop_run g dirs w0)
      as [[Hall ->]|(done & d & rest & -> & Hdone & Hd & ->)]
  end.
  - simpl in Hall. rewrite applied_log_all, log_all_app.
    unfold GovernorChanged, _save_governor, try_except, json_dump_config,
      config_write_fails.
    simpl. destruct (config_write w) as [| |[]] eqn:Hcfg; simpl;
      (eapply SetGovernor_run_eq;
       [by eapply (SG_applied _ _ _ available dirs probes probes')|world_eq]).
  - simpl in Hdone, Hd. simpl.
    eapply SetGovernor_run_eq;
      [by eapply (SG_write_fails _ _ _ available done d rest probes probes')
      |world_eq].
Qed.

(** ** Strings *)

Lemma no_space_app (s t : string) :
  no_space (s +:+ t) = no_space s && no_space t.
Proof.
  induction s as [|c s IH]; [done|].
  change (String c s +:+ t) with (String c (s +:+ t)).
  simpl. rewrite IH. by rewrite andb_assoc.
Qed.

Lemma split_go_no_space (s cur x : string) :
  no_space cur = true -> x ∈ PyStr.split_go cur s ->
  no_space x = true /\ x <> "".
Proof.
  revert cur. induction s as [|c s IH]; intros cur Hcur Hx; simpl in Hx.
  - destruct cur; simpl in Hx; [by apply elem_of_nil in Hx|].
    apply list_elem_of_singleton in Hx as ->. done.
  - destruct (PyStr.isspace c) eqn:Hc.
    + destruct cur as [|c' cur']; simpl in Hx.
      * by apply (IH "").
      * apply elem_of_cons in Hx as [->|Hx]; [done|]. by apply (IH "").
    + apply (IH (cur +:+ String c "")); [|done].
      rewrite no_space_app, Hcur. simpl. by rewrite Hc.
Qed.

(** The names [str.split] returns are not empty and hold no white
    space. *)
Lemma split_no_space (s x : string) :
  x ∈ PyStr.split s -> no_space x = true /\ x <> "".
Proof. by apply split_go_no_space. Qed.

Lemma lstrip_no_space (s : string) : no_space s = true -> PyStr.lstrip s = s.
Proof.
  destruct s as [|c s]; [done|]. simpl.
  by destruct (PyStr.isspace c).
Qed.

Lemma rstrip_no_space (s : string) : no_space s = true -> PyStr.rstrip s = s.
Proof.
  induction s as [|c s IH]; [done|]. simpl. intros [Hc Hs]%andb_prop.
  rewrite (IH Hs). destruct (PyStr.isspace c); [done|].
  by rewrite andb_false_r.
Qed.

Lemma strip_no_space (s : string) : no_space s = true -> PyStr.strip s = s.
Proof.
  intros H. unfold PyStr.strip. rewrite (rstrip_no_space s H).
  by apply lstrip_no_space.
Qed.

Lemma universal_newlines_no_space (s : string) :
  no_space s = true -> PyStr.universal_newlines s = s.
Proof.
  induction s as [|c s IH]; [done|]. simpl. intros [Hc Hs]%andb_prop.
  destruct (Ascii.eqb c PyStr.CR) eqn:Hcr.
  - apply Ascii.eqb_eq in Hcr as ->. done.
  - by rewrite (IH Hs).
Qed.

(** A name without white space is read back from a file as written. *)
Lemma sysfs_text_written (fs : gmap string string) (path value : string) :
  fs !! path = Some value -> no_space value = true ->
  sysfs_text fs path = value.
Proof.
  intros Hl Hv. unfold sysfs_text. rewrite Hl.
  rewrite (universal_newlines_no_space _ Hv). by apply strip_no_space.
Qed.

Lemma substring_refl (s : string) : substring s s.
Proof.
  exists "", "". change ("" +:+ s +:+ "") with (s +:+ "").
  induction s as [|c s IH]; [done|].
  change (String c s +:+ "") with (String c (s +:+ "")). by rewrite <- IH.
Qed.

Lemma append_assoc (a b c : string) : (a +:+ b) +:+ c = a +:+ b +:+ c.
Proof.
  induction a as [|x a IH]; [done|].
  change ((String x a +:+ b) +:+ c) with (String x ((a +:+ b) +:+ c)).
  by rewrite IH.
Qed.

Lemma substring_append_l (s t u : string) :
  substring s t -> substring s (u +:+ t).
Proof.
  intros (pre & post & ->). exists (u +:+ pre), post.
  by rewrite append_assoc.
Qed.

Lemma substring_append_r (s t u : string) :
  substring s t -> substring s (t +:+ u).
Proof.
  intros (pre & post & ->). exists pre, (post +:+ u).
  by rewrite !append_assoc.
Qed.

(** Every element of a list is in its [join]. *)
Lemma substring_join (sep x : string) (l : list string) :
  x ∈ l -> substring x (PyStr.join sep l).
Proof.
  unfold PyStr.join. induction l as [|y l IH]; intros Hx.
  - by apply elem_of_nil in Hx.
  - destruct l as [|z l].
    + apply list_elem_of_singleton in Hx as ->. apply substring_refl.
    + change (String.concat sep (y :: z :: l))
        with (y +:+ sep +:+ String.concat sep (z :: l)).
      apply elem_of_cons in Hx as [->|Hx].
      * apply substring_append_r, substring_refl.
      * apply substring_append_l, substring_append_l. by apply IH.
Qed.

Lemma invalid_governor_message_names (g : string) (available : list string) :
  substring g (invalid_governor_message g available)
  /\ substring (PyStr.join ", " available)
       (invalid_governor_message g available)
  /\ forall a, a ∈ available ->
       substring a (invalid_governor_message g available).
Proof.
  unfold invalid_governor_message. repeat split.
  - apply substring_append_l, substring_append_r, substring_refl.
  - do 4 apply substring_append_l. apply substring_refl.
  - intros a Ha. do 4 apply substring_append_l. by apply substring_join.
Qed.

(** ** Traces *)

Lemma probes_no_writes (evs : list event) :
  Forall (fun ev => is_probe ev = true) evs -> writes evs = [].
Proof.
  induction 1 as [|e evs He _ IH]; [done|]. unfold writes in *. simpl.
  rewrite IH. by destruct e.
Qed.

Lemma probes_no_auth (evs : list event) :
  Forall (fun ev => is_probe ev = true) evs -> List.filter is_auth evs = [].
Proof.
  induction 1 as [|e evs He _ IH]; [done|]. simpl.
  rewrite IH. by destruct e.
Qed.

Lemma writes_app (l1 l2 : list event) : writes (l1 ++ l2) = writes l1 ++ writes l2.
Proof. apply List.filter_app. Qed.

Lemma events_of_run {A} (m : M A) (w w0 : World) (evs : list event) :
  log_all evs w0 = world_after m w -> trace w0 = trace w ->
  events_of m w = evs.
Proof. intros H. by apply events_of_log_all. Qed.

(** An event that stands before a write in a list that opens with
    non-writes. *)
Lemma before_first_write (l1 l2 pre post : list event) (x e : event) :
  l1 ++ x :: l2 = pre ++ e :: post ->
  Forall (fun ev => is_write ev = false) l1 ->
  is_write x = false -> is_write e = true ->
  x ∈ pre.
Proof.
  revert pre. induction l1 as [|a l1 IH]; intros pre Heq Hl1 Hx He.
  - destruct pre as [|y pre]; simpl in Heq.
    + injection Heq as -> _. congruence.
    + injection Heq as -> _. by left.
  - apply Forall_cons in Hl1 as [Ha Hl1].
    destruct pre as [|y pre]; simpl in Heq.
    + injection Heq as -> _. congruence.
    + injection Heq as -> Heq. right. by apply IH.
Qed.

Lemma probes_not_writes (evs : list event) :
  Forall (fun ev => is_probe ev = true) evs ->
  Forall (fun ev => is_write ev = false) evs.
Proof. intros H. eapply Forall_impl; [exact H|]. by intros []. Qed.

Lemma filter_probes_app (l1 l2 : list event) :
  List.filter is_probe (l1 ++ l2)
  = List.filter is_probe l1 ++ List.filter is_probe l2.
Proof. apply List.filter_app. Qed.

Lemma filter_probes_id (evs : list event) :
  Forall (fun ev => is_probe ev = true) evs -> List.filter is_probe evs = evs.
Proof.
  induction 1 as [|e evs He _ IH]; [done|]. simpl. by rewrite He, IH.
Qed.

(** An unknown governor: the call raises before anything else than
    probes has happened. *)
Lemma SetGovernor_invalid_run (w : World) (g s : string)
    (available : list string) :
  result_of GetAvailableGovernors w = Return available ->
  g ∉ available ->
  exists probes,
    Forall (fun ev => is_probe ev = true) probes
    /\ SetGovernor g s w
       = (Raise (invalid_governor_error g available), log_all probes w).
Proof.
  intros Hav Hg. rewrite (world_after_result (SetGovernor g s) w).
  destruct (SetGovernor_runs w g s);
    try (exfalso; congruence);
    try (assert (available0 = available) as -> by congruence; try done).
  by exists probes.
Qed.

Lemma SetGovernor_invalid_facts (w : World) (g s : string)
    (available : list string) :
  result_of GetAvailableGovernors w = Return available ->
  g ∉ available ->
  result_of (SetGovernor g s) w = Raise (invalid_governor_error g available)
  /\ writes (events_of (SetGovernor g s) w) = []
  /\ List.filter is_auth (events_of (SetGovernor g s) w) = []
  /\ files (world_after (SetGovernor g s) w) = files w.
Proof.
  intros Hav Hg.
  destruct (SetGovernor_invalid_run w g s available Hav Hg)
    as (probes & Hp & Hrun).
  assert (events_of (SetGovernor g s) w = probes) as ->.
  { apply (events_of_log_all _ _ w); [by rewrite Hrun|done]. }
  unfold result_of, world_after. rewrite Hrun. simpl.
  by rewrite probes_no_writes, probes_no_auth.
Qed.

(** ** Properties of the D-Bus methods *)
(** C9. When no core with a governor file is enumerated, [GetGovernor]
    returns the string ["unknown"]: it neither raises nor returns the
    empty string. *)
Theorem GetGovernor_without_cores (w : World) :
  result_of _get_cpu_dirs w = Return [] ->
  result_of GetGovernor w = Return "unknown".
Proof.
  unfold result_of, GetGovernor, bind. intros Hdirs.
  destruct (_get_cpu_dirs w) as [[dirs|e] w']; simpl in Hdirs; [|done].
  by injection Hdirs as ->.
Qed.

Lemma GetGovernor_without_cores_witness :
  result_of GetGovernor (bare_machine CfgUnreadable) = Return "unknown".
Proof.
  apply (GetGovernor_without_cores (bare_machine CfgUnreadable)).
  vm_compute. reflexivity.
Defined.

(** C3. A governor [g] that is not in the accepted set, as read at the
    call, is refused: [SetGovernor g] raises the invalid-governor D-Bus
    error, whose message names [g] and the accepted set (each accepted
    name, in the list joined by commas). Nothing is written to sysfs, and
    the authority is not asked: the check comes first. *)
Theorem SetGovernor_rejects_unknown_governor (w : World) (g s : string)
    (available : list string) :
  result_of GetAvailableGovernors w = Return available ->
  g ∉ available ->
  let message := invalid_governor_message g available in
  result_of (SetGovernor g s) w
    = Raise (DBusException ERR_INVALID_GOVERNOR message)
  /\ fault_of (DBusException ERR_INVALID_GOVERNOR message)
     = Some InvalidArgument
  /\ substring g message
  /\ substring (PyStr.join ", " available) message
  /\ (forall a, a ∈ available -> substring a message)
  /\ writes (events_of (SetGovernor g s) w) = []
  /\ List.filter is_auth (events_of (SetGovernor g s) w) = []
  /\ files (world_after (SetGovernor g s) w) = files w.
Proof.
  intros Hav Hg message.
  destruct (SetGovernor_invalid_facts w g s available Hav Hg)
    as (Hres & Hwr & Hauth & Hfiles).
  destruct (invalid_governor_message_names g available) as (Hn1 & Hn2 & Hn3).
  by repeat split.
Qed.

Lemma SetGovernor_rejects_unknown_governor_witness :
  result_of (SetGovernor "turbo" ":1.42")
            (machine never (saved_config "powersave") true)
  = Raise (DBusException ERR_INVALID_GOVERNOR
      "Invalid governor: turbo. Available: performance, powersave, schedutil")
  /\ writes (events_of (SetGovernor "turbo" ":1.42")
               (machine never (saved_config "powersave") true)) = [].
Proof.
  destruct (SetGovernor_rejects_unknown_governor
              (machine never (saved_config "powersave") true)
              "turbo" ":1.42" ["performance"; "powersave"; "schedutil"])
    as (Hres & _ & _ & _ & _ & Hwr & _).
  - vm_compute. reflexivity.
  - apply (proj1 (bool_decide_eq_false _)). vm_compute. reflexivity.
  - split; [exact Hres|exact Hwr].
Defined.

(** C5, as the daemon has it. With no core enumerated the accepted set is
    empty, so [SetGovernor] refuses every governor with the
    invalid-governor error (its message lists no accepted name), before
    the authority is asked and without a write. The daemon has no fault
    of its own for "no cores". *)
Theorem SetGovernor_without_cores (w : World) (g s : string) :
  result_of _get_cpu_dirs w = Return [] ->
  result_of (SetGovernor g s) w = Raise (invalid_governor_error g [])
  /\ fault_of (invalid_governor_error g []) = Some InvalidArgument
  /\ writes (events_of (SetGovernor g s) w) = []
  /\ List.filter is_auth (events_of (SetGovernor g s) w) = [].
Proof.
  intros Hdirs.
  assert (result_of GetAvailableGovernors w = Return []) as Hav.
  { by rewrite GetAvailableGovernors_result, Hdirs. }
  destruct (SetGovernor_invalid_facts w g s [] Hav) as (Hres & Hwr & Hauth & _).
  { apply not_elem_of_nil. }
  done.
Qed.

Lemma SetGovernor_without_cores_witness :
  result_of (SetGovernor "performance" ":1.42") (bare_machine CfgUnreadable)
  = Raise (DBusException ERR_INVALID_GOVERNOR
             "Invalid governor: performance. Available: ").
Proof.
  destruct (SetGovernor_without_cores (bare_machine CfgUnreadable)
              "performance" ":1.42") as (Hres & _).
  - vm_compute. reflexivity.
  - exact Hres.
Defined.

(** C5, as stated, fails: on a machine where no core has a governor file
    the call ends with the invalid-governor error, not with a fault of
    its own. *)
Lemma SetGovernor_unavailable_counterexample :
  result_of _get_cpu_dirs (bare_machine CfgUnreadable) = Return []
  /\ result_of (SetGovernor "performance" ":1.42") (bare_machine CfgUnreadable)
     = Raise (DBusException ERR_INVALID_GOVERNOR
                "Invalid governor: performance. Available: ")
  /\ ~ (exists e,
          result_of (SetGovernor "performance" ":1.42")
                    (bare_machine CfgUnreadable) = Raise e
          /\ fault_of e = Some Unavailable).
Proof.
  split; [by vm_compute|]. split; [by vm_compute|].
  intros (e & He & Hf). vm_compute in He. injection He as <-.
  vm_compute in Hf. discriminate.
Qed.

Lemma SetGovernor_events (w : World) (g s : string) (evs : list event)
    (w0 : World) :
  log_all evs w0 = world_after (SetGovernor g s) w -> trace w0 = trace w ->
  events_of (SetGovernor g s) w = evs.
Proof. apply events_of_run. Qed.

Lemma trace_saved (g : string) (w : World) : trace (saved g w) = trace w.
Proof. reflexivity. Qed.

Lemma files_saved (g : string) (w : World) : files (saved g w) = files w.
Proof. reflexivity. Qed.

Lemma cpu_entries_saved (g : string) (w : World) :
  cpu_entries (saved g w) = cpu_entries w.
Proof. reflexivity. Qed.

Lemma config_write_ok (w : World) :
  config_write_fails w = false -> config_write w = SaveOk.
Proof. unfold config_write_fails. by destruct (config_write w). Qed.

Lemma config_saved (g : string) (w : World) :
  config_write_fails w = false -> config (saved g w) = saved_config g.
Proof. intros H. unfold saved. simpl. by rewrite (config_write_ok w H). Qed.

(** C2, as the daemon has it. A [SetGovernor] call whose check is not
    answered with a grant fails and writes nothing to sysfs, whatever the
    governor. When the governor is accepted and the authority answers
    that the caller is not authorized, the call raises the polkit
    not-authorized error. When the check itself fails on the bus, the
    call raises the bus's error as it is, under the bus's name. And in
    every call, a write to sysfs comes after a check that granted. *)
Theorem SetGovernor_checks_authorization_first (w : World) (g s : string) :
  (authority w s POLKIT_ACTION_SET <> Answer true ->
   (exists e, result_of (SetGovernor g s) w = Raise e)
   /\ writes (events_of (SetGovernor g s) w) = []
   /\ files (world_after (SetGovernor g s) w) = files w)
  /\ (forall available,
        result_of GetAvailableGovernors w = Return available ->
        g ∈ available ->
        authority w s POLKIT_ACTION_SET = Answer false ->
        result_of (SetGovernor g s) w
          = Raise (DBusException ERR_NOT_AUTHORIZED
                     ("Not authorized for action: " +:+ POLKIT_ACTION_SET))
        /\ fault_of (DBusException ERR_NOT_AUTHORIZED
                       ("Not authorized for action: " +:+ POLKIT_ACTION_SET))
           = Some NotAuthorized
        /\ events_of (SetGovernor g s) w
           = List.filter is_probe (events_of (SetGovernor g s) w)
             ++ [EvCheckAuthorization s POLKIT_ACTION_SET false])
  /\ (forall available name message,
        result_of GetAvailableGovernors w = Return available ->
        g ∈ available ->
        authority w s POLKIT_ACTION_SET = BusError name message ->
        result_of (SetGovernor g s) w = Raise (DBusException name message)
        /\ events_of (SetGovernor g s) w
           = List.filter is_probe (events_of (SetGovernor g s) w)
             ++ [EvAuthorityError s POLKIT_ACTION_SET name])
  /\ (forall pre e post,
        events_of (SetGovernor g s) w = pre ++ e :: post ->
        is_write e = true ->
        EvCheckAuthorization s POLKIT_ACTION_SET true ∈ pre).
Proof.
  pose proof (SetGovernor_runs w g s) as Hrun.
  inversion Hrun as
    [e probes Hav Hp Hr Hw
    |available probes Hav Hg Hp Hr Hw
    |available name message probes Hav Hg Hauth Hp Hr Hw
    |available probes Hav Hg Hauth Hp Hr Hw
    |available done d rest probes probes' Hav Hg Hauth Hdirs Hdone Hd Hp Hp' Hr Hw
    |available dirs probes probes' Hav Hg Hauth Hdirs Hall Hp Hp' Hr Hw];
    (rewrite (SetGovernor_events w g s _ _ Hw)
       by (rewrite ?trace_saved; reflexivity));
    clear Hrun.
  - split; [|split; [|split]].
    + intros _. split; [by eexists|]. split; [|done].
      by apply probes_no_writes.
    + intros available' Hav'. congruence.
    + intros available' name message Hav'. congruence.
    + intros pre ev post -> Hev. exfalso.
      apply probes_not_writes in Hp.
      apply Forall_app in Hp as [_ Hp]. apply Forall_cons in Hp as [Hp _].
      congruence.
  - split; [|split; [|split]].
    + intros _. split; [by eexists|]. split; [|done].
      by apply probes_no_writes.
    + intros available' Hav' Hg'. exfalso. congruence.
    + intros available' name message Hav' Hg'. exfalso. congruence.
    + intros pre ev post -> Hev. exfalso.
      apply probes_not_writes in Hp.
      apply Forall_app in Hp as [_ Hp]. apply Forall_cons in Hp as [Hp _].
      congruence.
  - split; [|split; [|split]].
    + intros _. split; [by eexists|]. split; [|done].
      rewrite writes_app, (probes_no_writes _ Hp). done.
    + intros available' _ _ Hauth'. congruence.
    + intros available' name' message' _ _ Hauth'.
      assert (name' = name) as -> by congruence.
      assert (message' = message) as -> by congruence.
      split; [done|].
      rewrite filter_probes_app, (filter_probes_id _ Hp). simpl.
      by rewrite app_nil_r.
    + intros pre ev post Heq Hev. exfalso.
      assert (Forall (fun x => is_write x = false)
                (probes ++ [EvAuthorityError s POLKIT_ACTION_SET name]))
        as Hall.
      { apply Forall_app. split; [by apply probes_not_writes|].
        by constructor. }
      rewrite Heq in Hall.
      apply Forall_app in Hall as [_ Hall].
      apply Forall_cons in Hall as [Hall _]. congruence.
  - split; [|split; [|split]].
    + intros _. split; [by eexists|]. split; [|done].
      rewrite writes_app, (probes_no_writes _ Hp). done.
    + intros available' _ _ _. split; [done|]. split; [done|].
      rewrite filter_probes_app, (filter_probes_id _ Hp). simpl.
      by rewrite app_nil_r.
    + intros available' name' message' _ _ Hauth'. congruence.
    + intros pre ev post Heq Hev. exfalso.
      assert (Forall (fun x => is_write x = false)
                (probes ++ [EvCheckAuthorization s POLKIT_ACTION_SET false]))
        as Hall.
      { apply Forall_app. split; [by apply probes_not_writes|].
        by constructor. }
      rewrite Heq in Hall.
      apply Forall_app in Hall as [_ Hall].
      apply Forall_cons in Hall as [Hall _]. congruence.
  - apply polkit_granted in Hauth. split; [|split; [|split]].
    + intros Hno. congruence.
    + intros available' _ _ Hauth'. congruence.
    + intros available' name' message' _ _ Hauth'. congruence.
    + intros pre ev post Heq Hev.
      apply (before_first_write _ _ _ _ _ _ Heq); try done.
      by apply probes_not_writes.
  - apply polkit_granted in Hauth. split; [|split; [|split]].
    + intros Hno. congruence.
    + intros available' _ _ Hauth'. congruence.
    + intros available' name' message' _ _ Hauth'. congruence.
    + intros pre ev post Heq Hev.
      apply (before_first_write _ _ _ _ _ _ Heq); try done.
      by apply probes_not_writes.
Qed.

Lemma SetGovernor_checks_authorization_first_witness :
  result_of (SetGovernor "performance" ":1.42")
            (machine never (saved_config "powersave") false)
  = Raise (DBusException ERR_NOT_AUTHORIZED
             "Not authorized for action: io.github.serverket.cpugov.set-governor")
  /\ writes (events_of (SetGovernor "performance" ":1.42")
               (machine never (saved_config "powersave") false)) = []
  /\ result_of (SetGovernor "performance" ":1.42") machine_without_authority
     = Raise (DBusException SERVICE_UNKNOWN
                "The name org.freedesktop.PolicyKit1 was not provided")
  /\ writes (events_of (SetGovernor "performance" ":1.42")
               machine_without_authority) = [].
Proof.
  destruct (SetGovernor_checks_authorization_first
              (machine never (saved_config "powersave") false)
              "performance" ":1.42") as (Hquiet & Hdenied & _).
  destruct (SetGovernor_checks_authorization_first
              machine_without_authority "performance" ":1.42")
    as (Hquiet' & _ & Hfailed & _).
  destruct Hquiet as (_ & Hwr & _); [vm_compute; discriminate|].
  destruct Hquiet' as (_ & Hwr' & _); [vm_compute; discriminate|].
  destruct (Hdenied ["performance"; "powersave"; "schedutil"])
    as (Hres & _).
  { vm_compute. reflexivity. }
  { apply (bool_decide_unpack _). vm_compute. exact I. }
  { vm_compute. reflexivity. }
  destruct (Hfailed ["performance"; "powersave"; "schedutil"] SERVICE_UNKNOWN
              "The name org.freedesktop.PolicyKit1 was not provided")
    as (Hres' & _).
  { vm_compute. reflexivity. }
  { apply (bool_decide_unpack _). vm_compute. exact I. }
  { vm_compute. reflexivity. }
  split; [exact Hres|]. split; [exact Hwr|]. split; [exact Hres'|exact Hwr'].
Defined.

(** C2, as stated, fails: with the authority not on the bus, the check
    does not grant, and the call fails under the bus's error name, which
    is not the not-authorized fault. *)
Lemma SetGovernor_not_authorized_counterexample :
  polkit machine_without_authority ":1.42" POLKIT_ACTION_SET = false
  /\ result_of (SetGovernor "performance" ":1.42") machine_without_authority
     = Raise (DBusException SERVICE_UNKNOWN
                "The name org.freedesktop.PolicyKit1 was not provided")
  /\ ~ (exists e,
          result_of (SetGovernor "performance" ":1.42")
                    machine_without_authority = Raise e
          /\ fault_of e = Some NotAuthorized).
Proof.
  split; [by vm_compute|]. split; [by vm_compute|].
  intros (e & He & Hf). vm_compute in He. injection He as <-.
  vm_compute in Hf. discriminate.
Qed.

(** ** Files after the apply loop *)

Lemma lookup_write_all (paths : list string) (value : string)
    (fs : gmap string string) (q : string) :
  write_all paths value fs !! q
  = if bool_decide (q ∈ paths) then Some value else fs !! q.
Proof.
  unfold write_all. revert fs. induction paths as [|p paths IH]; intros fs.
  - cbn [foldl]. case_bool_decide as Hq; [by apply elem_of_nil in Hq|done].
  - cbn [foldl]. rewrite IH.
    destruct (decide (q ∈ paths)) as [Hq|Hq].
    + rewrite !bool_decide_eq_true_2; [done|by right|done].
    + rewrite (bool_decide_eq_false_2 (q ∈ paths)) by done.
      destruct (decide (q = p)) as [->|Hne].
      * rewrite lookup_insert_eq.
        by rewrite bool_decide_eq_true_2 by (by left).
      * rewrite lookup_insert_ne by done.
        rewrite bool_decide_eq_false_2; [done|].
        intros [?|?]%elem_of_cons; done.
Qed.

(** The enumerated cores have a governor file. *)
Lemma enumerated_has_governor_file (w : World) (dirs : list string) (d : string) :
  result_of _get_cpu_dirs w = Return dirs -> d ∈ dirs ->
  is_Some (files w !! governor_file d).
Proof.
  unfold result_of. rewrite get_cpu_dirs_run.
  destruct (sorted_by _ _) as [sorted|]; simpl; [|done].
  intros [= <-] Hd. apply list_elem_of_In, List.filter_In in Hd as [_ Hd].
  by apply bool_decide_eq_true in Hd.
Qed.

(** Writing the governor files of the enumerated cores leaves the same
    cores enumerated. *)
Lemma enumerated_after_apply (w : World) (g : string) (dirs : list string) :
  result_of _get_cpu_dirs w = Return dirs ->
  result_of _get_cpu_dirs (applied g dirs w) = Return dirs.
Proof.
  intros Hdirs. rewrite <- Hdirs. apply get_cpu_dirs_cong; [done|].
  intros p. simpl. rewrite lookup_write_all.
  destruct (bool_decide (p ∈ governor_file <$> dirs)) eqn:Hp; [|done].
  apply bool_decide_eq_true, list_elem_of_fmap in Hp as (d & -> & Hd).
  split; [intros _|done]. by apply (enumerated_has_governor_file w dirs).
Qed.

Lemma accepted_no_space (w : World) (g : string) (available : list string) :
  result_of GetAvailableGovernors w = Return available -> g ∈ available ->
  no_space g = true.
Proof.
  rewrite GetAvailableGovernors_result.
  destruct (result_of _get_cpu_dirs w) as [[|cpu0 dirs]|e]; try done.
  - intros [= <-] Hg. by apply elem_of_nil in Hg.
  - intros [= <-] Hg. by apply split_no_space in Hg as [? _].
Qed.

(** C4. A [SetGovernor g] call that returns, none of its writes having
    failed, returned [True]; [g] was in the accepted set and the caller
    was authorized. After it the same cores are enumerated, the governor
    file of each one reads back as [g], [GovernorChanged g] was emitted,
    and the persisted record holds [g]. *)
Theorem SetGovernor_success (w : World) (g s : string) (b : bool) :
  result_of (SetGovernor g s) w = Return b ->
  Forall (fun ev => is_failure ev = false) (events_of (SetGovernor g s) w) ->
  let w' := world_after (SetGovernor g s) w in
  b = true
  /\ (exists available,
        result_of GetAvailableGovernors w = Return available /\ g ∈ available)
  /\ polkit w s POLKIT_ACTION_SET = true
  /\ result_of _get_cpu_dirs w' = result_of _get_cpu_dirs w
  /\ (forall dirs d,
        result_of _get_cpu_dirs w' = Return dirs -> d ∈ dirs ->
        result_of (_read_sysfs (OsPath.join d GOVERNOR_PATH)) w' = Return g)
  /\ EvGovernorChanged g ∈ events_of (SetGovernor g s) w
  /\ config w' = CfgJson (PyDict [("governor", PyStr g)])
  /\ result_of _load_saved_governor w' = Return (PyStr g).
Proof.
  intros Hret Hok w'. subst w'.
  pose proof (SetGovernor_runs w g s) as Hrun.
  inversion Hrun as
    [e probes Hav Hp Hr Hw
    |available probes Hav Hg Hp Hr Hw
    |available name message probes Hav Hg Hauth Hp Hr Hw
    |available probes Hav Hg Hauth Hp Hr Hw
    |available done d rest probes probes' Hav Hg Hauth Hdirs Hdone Hd Hp Hp' Hr Hw
    |available dirs probes probes' Hav Hg Hauth Hdirs Hall Hp Hp' Hr Hw];
    try congruence.
  clear Hrun.
  rewrite (SetGovernor_events w g s _ _ Hw) in *
    by (rewrite ?trace_saved; reflexivity).
  try rewrite <- Hw. clear Hw.
  assert (config_write_fails w = false) as Hcfg.
  { apply Forall_app in Hok as [_ Hok]. apply Forall_cons in Hok as [_ Hok].
    apply Forall_app in Hok as [_ Hok]. apply Forall_app in Hok as [_ Hok].
    apply Forall_cons in Hok as [_ Hok]. apply Forall_cons in Hok as [Hok _].
    simpl in Hok. by destruct (config_write_fails w). }
  assert (result_of _get_cpu_dirs
            (log_all
               (probes ++ EvCheckAuthorization s POLKIT_ACTION_SET true
                  :: probes' ++ (write_ok g <$> dirs)
                  ++ [EvGovernorChanged g;
                      EvSaveConfig g (negb (config_write_fails w))])
               (saved g (applied g dirs w)))
          = Return dirs) as Hsame.
  { rewrite <- (enumerated_after_apply w g dirs Hdirs).
    apply get_cpu_dirs_same_files; simpl.
    - by rewrite ?cpu_entries_saved.
    - by rewrite ?files_saved. }
  assert (config
            (log_all
               (probes ++ EvCheckAuthorization s POLKIT_ACTION_SET true
                  :: probes' ++ (write_ok g <$> dirs)
                  ++ [EvGovernorChanged g;
                      EvSaveConfig g (negb (config_write_fails w))])
               (saved g (applied g dirs w)))
          = CfgJson (PyDict [("governor", PyStr g)])) as Hsaved.
  { change (config (saved g (applied g dirs w)) = saved_config g).
    by apply config_saved. }
  split; [congruence|]. split; [by exists available|]. split; [done|].
  split; [congruence|]. split; [|split; [|split; [done|]]].
  - intros dirs' c Hdirs' Hc. rewrite Hsame in Hdirs'.
    injection Hdirs' as <-.
    unfold result_of. rewrite read_sysfs_run. simpl. f_equal.
    apply sysfs_text_written; [|by apply (accepted_no_space w g available)].
    rewrite ?files_saved. simpl. rewrite lookup_write_all.
    rewrite bool_decide_eq_true_2; [done|].
    apply list_elem_of_fmap. by exists c.
  - apply elem_of_app. right. right.
    apply elem_of_app. right. apply elem_of_app. right. by left.
  - rewrite load_saved_governor_result, Hsaved. done.
Qed.

Lemma SetGovernor_success_witness :
  result_of (_read_sysfs cpu1_governor)
    (world_after (SetGovernor "performance" ":1.42")
                 (machine never (saved_config "powersave") true))
  = Return "performance"
  /\ config (world_after (SetGovernor "performance" ":1.42")
                         (machine never (saved_config "powersave") true))
     = saved_config "performance".
Proof.
  destruct (SetGovernor_success
              (machine never (saved_config "powersave") true)
              "performance" ":1.42" true)
    as (_ & _ & _ & _ & Hread & _ & Hcfg & _).
  - vm_compute. reflexivity.
  - apply (bool_decide_unpack _). vm_compute. exact I.
  - split; [|exact Hcfg].
    apply (Hread ["/sys/devices/system/cpu/cpu0"; "/sys/devices/system/cpu/cpu1"]
                 "/sys/devices/system/cpu/cpu1").
    + vm_compute. reflexivity.
    + apply (bool_decide_unpack _). vm_compute. exact I.
Defined.

(** C1, on the code. The write to [cpu0] fails: [SetGovernor] raises
    there. The write to [cpu1] is not attempted, no signal is emitted and
    the record is not saved. *)
Theorem SetGovernor_stops_at_first_failed_write :
  let w := machine (String.eqb cpu0_governor) (saved_config "powersave") true in
  result_of (SetGovernor "performance" ":1.42") w = Raise OSError
  /\ writes (events_of (SetGovernor "performance" ":1.42") w)
     = [EvWrite cpu0_governor "performance" false]
  /\ files (world_after (SetGovernor "performance" ":1.42") w) !! cpu1_governor
     = Some (nl "powersave")
  /\ (EvGovernorChanged "performance"
        ∉ events_of (SetGovernor "performance" ":1.42") w)
  /\ config (world_after (SetGovernor "performance" ":1.42") w)
     = saved_config "powersave".
Proof.
  repeat split; try (vm_compute; reflexivity).
  apply (proj1 (bool_decide_eq_false _)). vm_compute. reflexivity.
Qed.

(** The restore loop on the same machine goes on to [cpu1] after the
    failed write to [cpu0]. *)
Lemma restore_continues_after_failed_write :
  let w := machine (String.eqb cpu0_governor) (saved_config "performance") true in
  result_of _restore_governor w = Return tt
  /\ writes (events_of _restore_governor w)
     = [EvWrite cpu0_governor "performance" false;
        EvWrite cpu1_governor "performance" true].
Proof. split; vm_compute; reflexivity. Qed.

(** In any world: when the write to an enumerated core fails, the call
    raises [OSError] and the cores after it are not written. *)
Lemma SetGovernor_write_failure (w : World) (g s : string)
    (done rest : list string) (d : string) :
  (exists available,
     result_of GetAvailableGovernors w = Return available /\ g ∈ available) ->
  polkit w s POLKIT_ACTION_SET = true ->
  result_of _get_cpu_dirs w = Return (done ++ d :: rest) ->
  Forall (fun c => write_fails w (governor_file c) = false) done ->
  write_fails w (governor_file d) = true ->
  result_of (SetGovernor g s) w = Raise OSError
  /\ writes (events_of (SetGovernor g s) w)
     = (write_ok g <$> done) ++ [EvWrite (governor_file d) g false].
Proof.
  intros (available & Hav & Hg) Hauth Hdirs Hdone Hd.
  apply polkit_granted in Hauth.
  pose proof (SetGovernor_runs w g s) as Hrun.
  inversion Hrun as
    [e probes Hav' Hp Hr Hw
    |available' probes Hav' Hg' Hp Hr Hw
    |available' name message probes Hav' Hg' Hauth' Hp Hr Hw
    |available' probes Hav' Hg' Hauth' Hp Hr Hw
    |available' done' d' rest' probes probes' Hav' Hg' Hauth' Hdirs' Hdone' Hd'
       Hp Hp' Hr Hw
    |available' dirs probes probes' Hav' Hg' Hauth' Hdirs' Hall Hp Hp' Hr Hw];
    try congruence.
  - split; [done|].
    rewrite (SetGovernor_events w g s _ _ Hw) by reflexivity.
    assert (done' = done /\ d' = d) as [-> ->].
    { rewrite Hdirs in Hdirs'. injection Hdirs' as Heq. clear - Heq Hdone Hd Hdone' Hd'.
      revert done' Heq Hdone'. induction done as [|c done IH]; intros done' Heq Hdone'.
      - destruct done' as [|c' done']; simpl in Heq.
        + by injection Heq as -> _.
        + injection Heq as -> _. apply Forall_cons in Hdone' as [? _]. congruence.
      - apply Forall_cons in Hdone as [Hc Hdone].
        destruct done' as [|c' done']; simpl in Heq.
        + injection Heq as <- _. congruence.
        + injection Heq as <- Heq. apply Forall_cons in Hdone' as [_ Hdone'].
          destruct (IH Hdone done' Heq Hdone') as [-> ->]. done. }
    pose proof (probes_no_writes _ Hp) as E. pose proof (probes_no_writes _ Hp') as E'.
    unfold writes in *. rewrite List.filter_app, E. simpl.
    rewrite !List.filter_app, E'. simpl. f_equal.
    clear. induction done as [|c done IH]; [done|].
    rewrite fmap_cons. cbn [List.filter].
    change (is_write (write_ok g c)) with true. cbv iota. by rewrite IH.
  - exfalso. rewrite Hdirs in Hdirs'. injection Hdirs' as <-.
    apply Forall_app in Hall as [_ Hall]. apply Forall_cons in Hall as [? _].
    congruence.
Qed.

(** ** Restoration *)

(** C10. A loaded value that is [None] (no record, no ["governor"] key, or
    a JSON [null]) or the empty string ends the restoration at once: the
    only thing done is the load; no sysfs file is listed, probed, read or
    written. *)
Theorem restore_without_saved_governor (w : World) (v : pyval) :
  result_of _load_saved_governor w = Return v ->
  v = PyNone \/ v = PyStr "" ->
  _restore_governor w = (Return tt, log EvLoadConfig w)
  /\ events_of _restore_governor w = [EvLoadConfig]
  /\ List.filter is_sysfs_access (events_of _restore_governor w) = []
  /\ files (world_after _restore_governor w) = files w.
Proof.
  intros Hload Hv.
  assert (_restore_governor w = (Return tt, log EvLoadConfig w)) as Hrun.
  { unfold _restore_governor, bind. rewrite load_saved_governor_run, Hload.
    by destruct Hv as [-> | ->]. }
  assert (events_of _restore_governor w = [EvLoadConfig]) as Hev.
  { apply (events_of_log_all _ _ w); [by rewrite Hrun|done]. }
  unfold world_after. rewrite Hev, Hrun. done.
Qed.

(** The loaded value is [None] when the record cannot be read or is not
    JSON, when it has no ["governor"] key, and when the key holds [null]. *)
Lemma load_saved_governor_none (w : World) :
  (config w = CfgUnreadable \/ config w = CfgMalformed
   \/ exists items, config w = CfgJson (PyDict items)
                    /\ dict_get items "governor" = PyNone) ->
  result_of _load_saved_governor w = Return PyNone.
Proof.
  rewrite load_saved_governor_result.
  intros [-> | [-> | (items & -> & Hget)]]; try done. by rewrite Hget.
Qed.

Lemma restore_without_saved_governor_witness :
  _restore_governor (machine never (saved_config "") true)
  = (Return tt, log EvLoadConfig (machine never (saved_config "") true))
  /\ _restore_governor (machine never (CfgJson (PyDict [("governor", PyNone)])) true)
     = (Return tt,
        log EvLoadConfig
          (machine never (CfgJson (PyDict [("governor", PyNone)])) true))
  /\ _restore_governor (machine never (CfgJson (PyDict [])) true)
     = (Return tt, log EvLoadConfig (machine never (CfgJson (PyDict [])) true)).
Proof.
  split; [|split].
  - apply (restore_without_saved_governor _ (PyStr "")).
    + vm_compute. reflexivity.
    + right. reflexivity.
  - apply (restore_without_saved_governor _ PyNone).
    + vm_compute. reflexivity.
    + left. reflexivity.
  - apply (restore_without_saved_governor _ PyNone).
    + vm_compute. reflexivity.
    + left. reflexivity.
Defined.

(** A saved governor that is not accepted: the restoration returns after
    its probes. *)
Lemma restore_unavailable_run (w : World) (name : string)
    (available : list string) :
  result_of _load_saved_governor w = Return (PyStr name) ->
  result_of GetAvailableGovernors w = Return available ->
  name ∉ available ->
  exists probes,
    Forall (fun ev => is_probe ev = true) probes
    /\ _restore_governor w = (Return tt, log_all (EvLoadConfig :: probes) w).
Proof.
  intros Hload Hav Hname.
  unfold _restore_governor, bind. rewrite load_saved_governor_run, Hload.
  destruct (truthy (PyStr name)); simpl; [|by exists []].
  destruct (get_cpu_dirs_probes (log EvLoadConfig w)) as (probes & Hp & ->).
  rewrite (get_cpu_dirs_same_files (log EvLoadConfig w) w) by done.
  rewrite GetAvailableGovernors_result in Hav.
  destruct (result_of _get_cpu_dirs w) as [[|cpu0 dirs]|e]; [| |done].
  - exists probes. split; [done|]. unfold log. by rewrite log_all_app.
  - injection Hav as <-. rewrite read_sysfs_run. simpl.
    rewrite bool_decide_eq_false_2 by done. simpl.
    exists (probes ++ [EvRead (OsPath.join cpu0 AVAIL_GOVERNORS_PATH)]).
    split.
    + apply Forall_app. split; [done|]. by constructor.
    + unfold ret, log. by rewrite !log_all_app.
Qed.

(** C6. When the persisted record names a governor that is not in the
    accepted set read at start-up from the first enumerated core, the
    restoration returns without an error, writes nothing to sysfs, and
    leaves the record as it was. *)
Theorem restore_skips_unavailable_governor (w : World) (name : string)
    (available : list string) :
  result_of _load_saved_governor w = Return (PyStr name) ->
  result_of GetAvailableGovernors w = Return available ->
  name ∉ available ->
  result_of _restore_governor w = Return tt
  /\ writes (events_of _restore_governor w) = []
  /\ files (world_after _restore_governor w) = files w
  /\ config (world_after _restore_governor w) = config w.
Proof.
  intros Hload Hav Hname.
  destruct (restore_unavailable_run w name available Hload Hav Hname)
    as (probes & Hp & Hrun).
  assert (events_of _restore_governor w = EvLoadConfig :: probes) as ->.
  { apply (events_of_log_all _ _ w); [by rewrite Hrun|done]. }
  unfold result_of, world_after. rewrite Hrun. simpl.
  repeat split; try done.
  exact (probes_no_writes _ Hp).
Qed.

Lemma restore_skips_unavailable_governor_witness :
  result_of _restore_governor (machine never (saved_config "ondemand") true)
  = Return tt
  /\ config (world_after _restore_governor
               (machine never (saved_config "ondemand") true))
     = saved_config "ondemand".
Proof.
  destruct (restore_skips_unavailable_governor
              (machine never (saved_config "ondemand") true) "ondemand"
              ["performance"; "powersave"; "schedutil"])
    as (Hres & _ & _ & Hcfg).
  - vm_compute. reflexivity.
  - vm_compute. reflexivity.
  - apply (proj1 (bool_decide_eq_false _)). vm_compute. reflexivity.
  - split; [exact Hres|exact Hcfg].
Defined.

Lemma restore_loop_keeps_config (l : list string) (value : string) (w : World) :
  config (world_after
            (for_each l (fun cpu_dir =>
               try_except
                 (_write_sysfs (OsPath.join cpu_dir GOVERNOR_PATH) value)
                 is_OSError (ret tt))) w)
  = config w.
Proof.
  unfold world_after. revert w. induction l as [|c l IH]; intros w; [done|].
  simpl. unfold bind, try_except. rewrite write_sysfs_run.
  destruct (write_fails w _); simpl.
  - unfold ret. by rewrite IH.
  - by rewrite IH.
Qed.

(** The restoration never writes the record. *)
Lemma restore_keeps_config (w : World) :
  config (world_after _restore_governor w) = config w.
Proof.
  unfold world_after, _restore_governor, bind.
  rewrite load_saved_governor_run.
  destruct (result_of _load_saved_governor w) as [v|e]; [|done].
  destruct (negb (truthy v)); [done|].
  destruct (get_cpu_dirs_probes (log EvLoadConfig w)) as (probes & Hp & ->).
  destruct (result_of _get_cpu_dirs (log EvLoadConfig w)) as [[|cpu0 dirs]|e];
    try done.
  rewrite read_sysfs_run. cbv iota beta.
  destruct (negb (py_in v _)); [done|]. destruct v; try done.
  exact (restore_loop_keeps_config (cpu0 :: dirs) _ _).
Qed.

(** C7, on the code. A record that is valid JSON but not an object (here
    the empty array): [config.get] raises [AttributeError], which the
    [except] clause does not catch; the load raises, and so does the
    daemon's start-up. *)
Theorem load_saved_governor_raises_on_json_array :
  result_of _load_saved_governor (machine never (CfgJson (PyList [])) true)
  = Raise AttributeError
  /\ result_of daemon_init (machine never (CfgJson (PyList [])) true)
     = Raise AttributeError.
Proof. split; vm_compute; reflexivity. Qed.

(** What the load does handle: a record that cannot be opened or is not
    JSON gives [None]. *)
Lemma load_saved_governor_fail_soft (w : World) :
  config w = CfgUnreadable \/ config w = CfgMalformed ->
  _load_saved_governor w = (Return PyNone, log EvLoadConfig w).
Proof.
  intros H. rewrite load_saved_governor_run, load_saved_governor_none; [done|].
  destruct H; auto.
Qed.

(** ** The snapshot *)

Lemma split_once_contains (sep : ascii) (s : string) :
  contains sep s = true ->
  exists before after, PyStr.split_once sep s = [before; after].
Proof.
  induction s as [|c s IH]; [done|]. simpl.
  destruct (Ascii.eqb c sep); simpl.
  - intros _. by exists "", s.
  - intros (before & after & ->)%IH. by exists (String c before), after.
Qed.

Lemma get_cpu_model_run (w : World) :
  _get_cpu_model w = (result_of _get_cpu_model w, log (EvRead CPU_MODEL_PATH) w).
Proof.
  unfold result_of, _get_cpu_model, try_except, bind, open_read.
  destruct (files w !! CPU_MODEL_PATH) as [content|]; [|done].
  destruct (first_model_line _) as [line|]; [|done].
  by destruct (PyStr.split_once ":" line) as [|? [|? ?]].
Qed.

Lemma get_cpu_model_same_files (w1 w2 : World) :
  files w1 = files w2 ->
  result_of _get_cpu_model w1 = result_of _get_cpu_model w2.
Proof.
  intros Hf.
  unfold result_of, _get_cpu_model, try_except, bind, open_read.
  rewrite Hf.
  destruct (files w2 !! CPU_MODEL_PATH) as [content|]; [|done].
  destruct (first_model_line _) as [line|]; [|done].
  by destruct (PyStr.split_once ":" line) as [|? [|? ?]].
Qed.



(** * Further properties of the daemon *)

(** ** Enumeration *)

Lemma insert_by_key_perm (x : Z * string) (l : list (Z * string)) :
  insert_by_key x l ≡ₚ x :: l.
Proof.
  induction l as [|y l IH]; [done|]. simpl.
  destruct (fst y <? fst x); [|done].
  rewrite IH. apply Permutation_swap.
Qed.

Lemma sort_by_key_perm (l : list (Z * string)) : sort_by_key l ≡ₚ l.
Proof.
  induction l as [|x l IH]; [done|]. simpl.
  by rewrite insert_by_key_perm, IH.
Qed.

Lemma insert_by_key_sorted (x : Z * string) (l : list (Z * string)) :
  StronglySorted (fun a b => fst a <= fst b) l ->
  StronglySorted (fun a b => fst a <= fst b) (insert_by_key x l).
Proof.
  induction l as [|y l IH]; intros Hl; simpl.
  - by repeat constructor.
  - apply StronglySorted_inv in Hl as [Hl Hy].
    destruct (fst y <? fst x) eqn:Hlt.
    + apply Z.ltb_lt in Hlt. constructor; [by apply IH|].
      rewrite insert_by_key_perm. constructor; [lia|done].
    + apply Z.ltb_ge in Hlt. constructor; [by constructor|].
      constructor; [done|].
      eapply Forall_impl; [exact Hy|]. simpl. intros; lia.
Qed.

Lemma sort_by_key_sorted (l : list (Z * string)) :
  StronglySorted (fun a b => fst a <= fst b) (sort_by_key l).
Proof.
  induction l as [|x l IH]; simpl; [constructor|].
  by apply insert_by_key_sorted.
Qed.

Lemma StronglySorted_filter {A} (R : A -> A -> Prop) (p : A -> bool)
    (l : list A) :
  StronglySorted R l -> StronglySorted R (List.filter p l).
Proof.
  induction 1 as [|x l Hl IH Hx]; simpl; [constructor|].
  destruct (p x); [|done]. constructor; [done|].
  apply Forall_forall. intros y Hy%list_elem_of_In%List.filter_In.
  destruct Hy as [Hy _]. apply list_elem_of_In in Hy.
  by apply (proj1 (Forall_forall _ _) Hx).
Qed.

(** What [sorted] returns: the same paths, in the order of their keys. *)
Lemma sorted_by_spec (key : string -> option Z) (l dirs : list string) :
  sorted_by key l = Some dirs ->
  dirs ≡ₚ l
  /\ StronglySorted
       (fun d1 d2 => exists k1 k2,
          key d1 = Some k1 /\ key d2 = Some k2 /\ k1 <= k2) dirs.
Proof.
  unfold sorted_by. intros H.
  destruct (mapM _ l) as [keyed|] eqn:Hk; [|done]. simpl in H.
  injection H as <-.
  apply mapM_Some_1 in Hk.
  assert (snd <$> keyed = l /\ Forall (fun p => key (snd p) = Some (fst p)) keyed)
    as [Hsnd Hkeys].
  { clear -Hk. induction Hk as [|d p l keyed Hd _ [IH1 IH2]]; [done|].
    destruct (key d) as [k|] eqn:Hkd; [|done]. simpl in Hd.
    injection Hd as <-. split; [by rewrite fmap_cons, IH1|].
    by constructor. }
  split.
  - rewrite <- Hsnd. by rewrite sort_by_key_perm.
  - assert (Forall (fun p => key (snd p) = Some (fst p)) (sort_by_key keyed))
      as Hkeys'.
    { by rewrite sort_by_key_perm. }
    pose proof (sort_by_key_sorted keyed) as Hs.
    clear -Hkeys' Hs.
    induction Hs as [|p ps Hps IH Hp]; [constructor|].
    apply Forall_cons in Hkeys' as [Hkp Hkeys'].
    rewrite fmap_cons. constructor; [by apply IH|].
    apply Forall_fmap, Forall_forall. intros q Hq. simpl.
    exists (fst p), (fst q). repeat split; [done| |].
    + by apply (proj1 (Forall_forall _ _) Hkeys').
    + by apply (proj1 (Forall_forall _ _) Hp).
Qed.

Lemma sorted_by_None (key : string -> option Z) (l : list string) :
  sorted_by key l = None <-> exists d, d ∈ l /\ key d = None.
Proof.
  unfold sorted_by. split.
  - destruct (mapM _ l) as [keyed|] eqn:Hk; [done|]. intros _.
    apply mapM_None_1, Exists_exists in Hk as (d & Hd & Hkd).
    exists d. split; [done|]. by destruct (key d).
  - intros (d & Hd & Hkd).
    rewrite (proj2 (mapM_None _ l)); [done|].
    apply Exists_exists. exists d. split; [done|]. by rewrite Hkd.
Qed.

Lemma elem_of_glob_paths (entries : list string) (d : string) :
  d ∈ glob_paths entries <->
  exists name, name ∈ entries /\ OsPath.match_cpu_pattern name = true
               /\ d = OsPath.join SYSFS_CPU_BASE name.
Proof.
  unfold glob_paths. rewrite list_elem_of_fmap. split.
  - intros (name & -> & Hn%list_elem_of_In%List.filter_In).
    destruct Hn as [Hn Hm]. exists name. by rewrite list_elem_of_In.
  - intros (name & Hn & Hm & ->). exists name. split; [done|].
    apply list_elem_of_In, List.filter_In. by rewrite <- list_elem_of_In.
Qed.

(** X1. The cores [_get_cpu_dirs] returns are in the order of their
    numeric index ([cpu2] before [cpu10]), whatever the order of the
    directory listing. *)
Theorem get_cpu_dirs_sorted (w : World) (dirs : list string) :
  result_of _get_cpu_dirs w = Return dirs ->
  StronglySorted index_le dirs.
Proof.
  unfold result_of. rewrite get_cpu_dirs_run.
  destruct (sorted_by _ _) as [sorted|] eqn:Hs; simpl; [|done].
  intros [= <-]. apply StronglySorted_filter.
  by apply sorted_by_spec in Hs as [_ Hs].
Qed.

(** X2. The cores returned are exactly the entries of the cpu directory
    that match [cpu[0-9]*] and have a [cpufreq/scaling_governor] file. *)
Theorem get_cpu_dirs_members (w : World) (dirs : list string) (d : string) :
  result_of _get_cpu_dirs w = Return dirs ->
  d ∈ dirs <->
  (exists name,
     name ∈ cpu_entries w /\ OsPath.match_cpu_pattern name = true
     /\ d = OsPath.join SYSFS_CPU_BASE name)
  /\ is_Some (files w !! OsPath.join d GOVERNOR_PATH).
Proof.
  unfold result_of. rewrite get_cpu_dirs_run.
  destruct (sorted_by _ _) as [sorted|] eqn:Hs; simpl; [|done].
  intros [= <-]. apply sorted_by_spec in Hs as [Hperm _].
  rewrite <- elem_of_glob_paths, <- Hperm.
  rewrite list_elem_of_In, List.filter_In, <- list_elem_of_In.
  by rewrite bool_decide_eq_true.
Qed.

(** X3. [_get_cpu_dirs] raises exactly when an entry that matches the
    pattern has a suffix that [int] refuses (as [cpu0abc]); the error is
    [ValueError]. *)
Theorem get_cpu_dirs_raises (w : World) (e : exn) :
  result_of _get_cpu_dirs w = Raise e <->
  e = ValueError
  /\ exists name,
       name ∈ cpu_entries w /\ OsPath.match_cpu_pattern name = true
       /\ cpu_index (OsPath.join SYSFS_CPU_BASE name) = None.
Proof.
  unfold result_of. rewrite get_cpu_dirs_run.
  destruct (sorted_by _ _) as [sorted|] eqn:Hs; simpl.
  - split; [done|]. intros [_ (name & Hn & Hm & Hk)].
    assert (sorted_by cpu_index (glob_paths (cpu_entries w)) = None) as Hnone.
    { apply sorted_by_None. exists (OsPath.join SYSFS_CPU_BASE name).
      split; [|done]. apply elem_of_glob_paths. by exists name. }
    congruence.
  - apply sorted_by_None in Hs as (d & Hd & Hk).
    apply elem_of_glob_paths in Hd as (name & Hn & Hm & ->).
    split.
    + intros [= <-]. split; [done|]. by exists name.
    + by intros [-> _].
Qed.

Lemma get_cpu_dirs_sorted_witness :
  StronglySorted index_le
    ["/sys/devices/system/cpu/cpu0"; "/sys/devices/system/cpu/cpu2";
     "/sys/devices/system/cpu/cpu10"].
Proof.
  apply (get_cpu_dirs_sorted shuffled_machine).
  vm_compute. reflexivity.
Defined.

Lemma get_cpu_dirs_members_witness :
  "/sys/devices/system/cpu/cpu10"
    ∈ ["/sys/devices/system/cpu/cpu0"; "/sys/devices/system/cpu/cpu2";
       "/sys/devices/system/cpu/cpu10"]
  <-> (exists name,
         name ∈ cpu_entries shuffled_machine
         /\ OsPath.match_cpu_pattern name = true
         /\ "/sys/devices/system/cpu/cpu10" = OsPath.join SYSFS_CPU_BASE name)
      /\ is_Some (files shuffled_machine
                  !! OsPath.join "/sys/devices/system/cpu/cpu10" GOVERNOR_PATH).
Proof.
  apply (get_cpu_dirs_members shuffled_machine).
  vm_compute. reflexivity.
Defined.

Lemma get_cpu_dirs_raises_witness :
  result_of _get_cpu_dirs stray_machine = Raise ValueError.
Proof.
  apply (proj2 (get_cpu_dirs_raises stray_machine ValueError)).
  split; [reflexivity|]. exists "cpu0abc". split; [|split].
  - apply (bool_decide_unpack _). vm_compute. exact I.
  - vm_compute. reflexivity.
  - vm_compute. reflexivity.
Defined.

(** What [int] makes of some suffixes: leading zeros and single
    underscores are read, blanks around the number are skipped; a unit
    separator is not white space to [int], and an entry that ends in one
    makes the enumeration raise. *)
Lemma cpu_index_examples :
  cpu_index "/sys/devices/system/cpu/cpu07" = Some 7
  /\ cpu_index "/sys/devices/system/cpu/cpu1_0" = Some 10
  /\ cpu_index (nl "/sys/devices/system/cpu/cpu3 ") = Some 3
  /\ cpu_index "/sys/devices/system/cpu/cpu1_" = None
  /\ cpu_index ("/sys/devices/system/cpu/cpu1" +:+ String (ascii_of_nat 31) "")
     = None
  /\ result_of _get_cpu_dirs separator_machine = Raise ValueError.
Proof. repeat split; vm_compute; reflexivity. Qed.

(** [int] reads a number of [int_max_str_digits] digits and refuses one
    digit more. *)
Lemma int_digit_limit :
  PyStr.int (Nat.iter 4300 (String "1") "") <> None
  /\ PyStr.int (Nat.iter 4301 (String "1") "") = None.
Proof. split; [vm_compute; discriminate|vm_compute; reflexivity]. Qed.

(** ** Reading and writing sysfs files *)

Lemma lstrip_not_starts_with_space (s : string) :
  starts_with_space (PyStr.lstrip s) = false.
Proof.
  induction s as [|c s IH]; [done|]. simpl.
  destruct (PyStr.isspace c) eqn:Hc; [done|]. simpl. done.
Qed.

Lemma rstrip_not_ends_with_space (s : string) :
  ends_with_space (PyStr.rstrip s) = false.
Proof.
  induction s as [|c s IH]; [done|]. simpl.
  destruct (PyStr.rstrip s) as [|c' r] eqn:Hr; simpl.
  - destruct (PyStr.isspace c) eqn:Hc; simpl; [done|]. done.
  - done.
Qed.

Lemma lstrip_keeps_end (s : string) :
  ends_with_space s = false -> ends_with_space (PyStr.lstrip s) = false.
Proof.
  induction s as [|c s IH]; [done|]. intros H. simpl.
  destruct (PyStr.isspace c) eqn:Hc; [|done].
  apply IH. destruct s; [done|]. done.
Qed.

(** X4. [_read_sysfs path], for a path that can name a file (it holds no
    NUL character): when the file holds the text [content], the call
    returns [content] with its line ends read as ["\n"] and the white
    space stripped from both ends; when the file cannot be opened, it
    returns the empty string. Either way nothing is raised, what is
    returned neither starts nor ends with white space, and the world only
    gains the read in its trace. *)
Theorem read_sysfs_total (path : string) (w : World) :
  contains NUL path = false ->
  exists text,
    _read_sysfs path w = (Return text, log (EvRead path) w)
    /\ (forall content,
          files w !! path = Some content ->
          text = PyStr.strip (PyStr.universal_newlines content))
    /\ (files w !! path = None -> text = "")
    /\ starts_with_space text = false
    /\ ends_with_space text = false.
Proof.
  intros _. exists (sysfs_text (files w) path). rewrite read_sysfs_run.
  split; [done|]. unfold sysfs_text.
  destruct (files w !! path) as [content|].
  - split; [by intros ? [= <-]|]. split; [done|]. unfold PyStr.strip. split.
    + apply lstrip_not_starts_with_space.
    + apply lstrip_keeps_end, rstrip_not_ends_with_space.
  - by repeat split.
Qed.

Lemma read_sysfs_total_witness :
  _read_sysfs cpu0_available (machine never CfgUnreadable true)
  = (Return "performance powersave schedutil",
     log (EvRead cpu0_available) (machine never CfgUnreadable true))
  /\ _read_sysfs "/sys/devices/system/cpu/online"
                 (machine never CfgUnreadable true)
     = (Return "",
        log (EvRead "/sys/devices/system/cpu/online")
            (machine never CfgUnreadable true)).
Proof.
  destruct (read_sysfs_total cpu0_available (machine never CfgUnreadable true))
    as (text & Hrun & Hsome & _); [vm_compute; reflexivity|].
  destruct (read_sysfs_total "/sys/devices/system/cpu/online"
              (machine never CfgUnreadable true))
    as (text' & Hrun' & _ & Hnone & _); [vm_compute; reflexivity|].
  rewrite Hrun, Hrun'.
  rewrite (Hsome (nl "performance powersave schedutil"))
    by (vm_compute; reflexivity).
  rewrite Hnone by (vm_compute; reflexivity).
  split; vm_compute; reflexivity.
Defined.

(** ** The persisted record *)

Lemma restore_nothing_saved (w : World) :
  config w = CfgUnreadable \/ config w = CfgMalformed ->
  _restore_governor w = (Return tt, log EvLoadConfig w).
Proof.
  intros H. unfold _restore_governor, bind.
  by rewrite (load_saved_governor_fail_soft w H).
Qed.

(** X5. [_save_governor] never raises and touches no sysfs file, however
    the write of the record goes. What the next start-up finds depends on
    where the write failed, if it did:
    - the text reached the file (the write succeeded, or only closing the
      file failed): the load returns the new name;
    - the file could not be opened: the record is as it was, and the load
      returns what it returned before;
    - the write failed once [open] had truncated the file: the record
      is not JSON any more, whatever it held; the load returns [None] and
      a restoration does nothing but the load. *)
Theorem save_governor_fail_soft (g : string) (w : World) :
  let w' := world_after (_save_governor g) w in
  result_of (_save_governor g) w = Return tt
  /\ files w' = files w
  /\ events_of (_save_governor g) w
     = [EvSaveConfig g (negb (config_write_fails w))]
  /\ (config_write w = SaveOk \/ config_write w = SaveFailsAtWrite true ->
      config w' = saved_config g
      /\ result_of _load_saved_governor w' = Return (PyStr g))
  /\ (config_write w = SaveFailsAtOpen ->
      config w' = config w
      /\ result_of _load_saved_governor w' = result_of _load_saved_governor w)
  /\ (config_write w = SaveFailsAtWrite false ->
      config w' = CfgMalformed
      /\ result_of _load_saved_governor w' = Return PyNone
      /\ _restore_governor w' = (Return tt, log EvLoadConfig w')).
Proof.
  intros w'. subst w'.
  assert (_save_governor g w
          = (Return tt,
             log (EvSaveConfig g (negb (config_write_fails w))) (saved g w)))
    as Hrun.
  { unfold _save_governor, try_except, json_dump_config, saved.
    by destruct (config_write_fails w). }
  unfold result_of at 1. unfold world_after.
  rewrite (events_of_log_all _ w (saved g w) _ (f_equal snd Hrun) eq_refl).
  rewrite Hrun. cbn [fst snd].
  split; [done|]. split; [done|]. split; [done|].
  split; [|split].
  - intros Hcase.
    assert (config (log (EvSaveConfig g (negb (config_write_fails w)))
                        (saved g w)) = saved_config g) as Hcfg.
    { unfold saved. simpl. by destruct Hcase as [-> | ->]. }
    split; [done|]. by rewrite load_saved_governor_result, Hcfg.
  - intros Hcase.
    assert (config (log (EvSaveConfig g (negb (config_write_fails w)))
                        (saved g w)) = config w) as Hcfg.
    { unfold saved. simpl. by rewrite Hcase. }
    split; [done|]. by rewrite !load_saved_governor_result, Hcfg.
  - intros Hcase.
    assert (config (log (EvSaveConfig g (negb (config_write_fails w)))
                        (saved g w)) = CfgMalformed) as Hcfg.
    { unfold saved. simpl. by rewrite Hcase. }
    split; [done|]. split.
    + by rewrite load_saved_governor_result, Hcfg.
    + apply restore_nothing_saved. by right.
Qed.

Lemma save_governor_fail_soft_witness :
  config (world_after (_save_governor "performance") truncating_machine)
  = CfgMalformed
  /\ result_of _restore_governor
       (world_after (_save_governor "performance") truncating_machine)
     = Return tt
  /\ writes (events_of _restore_governor
               (world_after (_save_governor "performance") truncating_machine))
     = [].
Proof.
  destruct (save_governor_fail_soft "performance" truncating_machine)
    as (_ & _ & _ & _ & _ & Hlate).
  destruct Hlate as (Hcfg & _ & Hrun); [vm_compute; reflexivity|].
  split; [exact Hcfg|].
  unfold result_of, events_of. rewrite Hrun.
  split; vm_compute; reflexivity.
Defined.

(** X6. [_load_saved_governor] changes nothing but the trace. It raises
    in two cases, and in no other: the record decodes to a JSON value that
    is not an object, and [config.get] raises [AttributeError]; or
    [json.load] fails with an error that is neither an [OSError] nor a
    [JSONDecodeError] (bytes that are not text, an integer literal of too
    many digits, a nesting too deep), and that error leaves the method. *)
Theorem load_saved_governor_raises_iff (w : World) (e : exn) :
  world_after _load_saved_governor w = log EvLoadConfig w
  /\ (result_of _load_saved_governor w = Raise e <->
      (e = AttributeError
       /\ exists doc, config w = CfgJson doc
                      /\ forall items, doc <> PyDict items)
      \/ (exists why, config w = CfgUndecodable why /\ e = decode_error why)).
Proof.
  split; [apply load_saved_governor_frame|].
  rewrite load_saved_governor_result.
  destruct (config w) as [| |why|doc].
  - split; [done|]. by intros [[_ (? & ? & _)]|(? & ? & _)].
  - split; [done|]. by intros [[_ (? & ? & _)]|(? & ? & _)].
  - split.
    + intros [= <-]. right. by exists why.
    + intros [[_ (? & ? & _)]|(why' & [= <-] & ->)]; done.
  - destruct doc;
      try (split;
           [intros [= <-]; left; split; [done|]; by eexists
           |by intros [[-> _]|(? & ? & _)]]).
    split; [done|].
    intros [[_ (doc & [= <-] & Hdoc)]|(? & ? & _)]; [|done].
    by destruct (Hdoc items).
Qed.

(** The three records on which [json.load] raises an error the daemon
    does not catch stop the load, and with it the start-up. *)
Lemma load_saved_governor_decode_errors :
  result_of daemon_init (machine never (CfgUndecodable NotText) true)
  = Raise UnicodeDecodeError
  /\ result_of daemon_init (machine never (CfgUndecodable IntegerTooLong) true)
     = Raise ValueError
  /\ result_of daemon_init (machine never (CfgUndecodable NestedTooDeep) true)
     = Raise RecursionError.
Proof. repeat split; vm_compute; reflexivity. Qed.

(** ** The restore loop *)

Lemma writable_cons (w : World) (d : string) (dirs : list string) :
  writable w (d :: dirs)
  = if write_fails w (governor_file d) then writable w dirs
    else d :: writable w dirs.
Proof. unfold writable. simpl. by destruct (write_fails w _). Qed.

(** The restore loop attempts every core, in order, and returns. *)
Lemma restore_loop_run (value : string) (dirs : list string) (w : World) :
  for_each dirs (fun cpu_dir =>
    try_except (_write_sysfs (OsPath.join cpu_dir GOVERNOR_PATH) value)
               is_OSError (ret tt)) w
  = (Return tt,
     log_all (restore_write w value <$> dirs)
             (applied value (writable w dirs) w)).
Proof.
  revert w. induction dirs as [|d dirs IH]; intros w.
  - simpl. unfold ret, applied, with_files. simpl.
    rewrite log_all_nil. by destruct w.
  - cbn [for_each]. unfold bind, try_except at 1. rewrite write_sysfs_run.
    rewrite writable_cons. fold (governor_file d).
    destruct (write_fails w (governor_file d)) eqn:Hd; simpl.
    + unfold ret at 1. rewrite IH. unfold log.
      rewrite applied_log_all, log_all_app.
      unfold restore_write, writable. simpl. by rewrite Hd.
    + rewrite IH. unfold log.
      change (writable (log_all _ (set_file _ _ w)) dirs) with (writable w dirs).
      rewrite applied_cons, log_all_app.
      unfold restore_write, writable. simpl. by rewrite Hd.
Qed.

Lemma accepted_has_core (w : World) (g : string) (available : list string) :
  result_of GetAvailableGovernors w = Return available -> g ∈ available ->
  exists cpu0 rest,
    result_of _get_cpu_dirs w = Return (cpu0 :: rest)
    /\ available
       = PyStr.split (sysfs_text (files w) (OsPath.join cpu0 AVAIL_GOVERNORS_PATH)).
Proof.
  rewrite GetAvailableGovernors_result.
  destruct (result_of _get_cpu_dirs w) as [[|cpu0 dirs]|e]; try done.
  - intros [= <-] Hg. by apply elem_of_nil in Hg.
  - intros [= <-] _. by exists cpu0, dirs.
Qed.

(** A saved governor that is accepted: the restoration probes, then runs
    the loop over the enumerated cores. *)
Lemma restore_applies_run (w : World) (name : string)
    (available dirs : list string) :
  result_of _load_saved_governor w = Return (PyStr name) ->
  result_of GetAvailableGovernors w = Return available ->
  name ∈ available ->
  result_of _get_cpu_dirs w = Return dirs ->
  exists probes,
    Forall (fun ev => is_probe ev = true) probes
    /\ _restore_governor w
       = (Return tt,
          log_all (EvLoadConfig :: probes ++ (restore_write w name <$> dirs))
                  (applied name (writable w dirs) w)).
Proof.
  intros Hload Hav Hname Hdirs.
  destruct (accepted_has_core w name available Hav Hname)
    as (cpu0 & rest & Hdirs' & Havail).
  assert (dirs = cpu0 :: rest) as Hd by congruence.
  destruct (split_no_space _ name
              (eq_ind _ (fun l => name ∈ l) Hname _ Havail)) as [_ Hne].
  unfold _restore_governor, bind. rewrite load_saved_governor_run, Hload.
  assert (truthy (PyStr name) = true) as -> by (by destruct name).
  cbn [negb].
  destruct (get_cpu_dirs_probes (log EvLoadConfig w)) as (probes & Hp & ->).
  rewrite (get_cpu_dirs_same_files (log EvLoadConfig w) w) by done.
  rewrite Hdirs'. rewrite read_sysfs_run. cbv iota beta.
  change (files (log_all probes (log EvLoadConfig w))) with (files w).
  rewrite <- Havail. cbn [py_in].
  rewrite bool_decide_eq_true_2 by done. cbn [negb].
  rewrite (restore_loop_run name (cpu0 :: rest)).
  exists (probes ++ [EvRead (OsPath.join cpu0 AVAIL_GOVERNORS_PATH)]).
  split.
  - apply Forall_app. split; [done|]. by constructor.
  - subst dirs. f_equal. unfold log.
    rewrite !applied_log_all, !log_all_app.
    change (writable (log_all _ _) (cpu0 :: rest))
      with (writable w (cpu0 :: rest)).
    f_equal. by rewrite <- !app_assoc.
Qed.

Lemma writes_restore_writes (w : World) (value : string) (dirs : list string) :
  writes (restore_write w value <$> dirs) = restore_write w value <$> dirs.
Proof.
  unfold writes. induction dirs as [|d dirs IH]; [done|].
  rewrite fmap_cons. cbn [List.filter].
  change (is_write (restore_write w value d)) with true. cbv iota.
  by rewrite IH.
Qed.

Lemma elem_of_writable (w : World) (dirs : list string) (d : string) :
  d ∈ writable w dirs <->
  d ∈ dirs /\ write_fails w (governor_file d) = false.
Proof.
  unfold writable.
  rewrite list_elem_of_In, List.filter_In, <- list_elem_of_In.
  by rewrite negb_true_iff.
Qed.

(** The restoration of an accepted governor, by its effects. *)
Lemma restore_applies_facts (w : World) (name : string)
    (available dirs : list string) :
  result_of _load_saved_governor w = Return (PyStr name) ->
  result_of GetAvailableGovernors w = Return available ->
  name ∈ available ->
  result_of _get_cpu_dirs w = Return dirs ->
  result_of _restore_governor w = Return tt
  /\ writes (events_of _restore_governor w) = restore_write w name <$> dirs
  /\ (forall d, d ∈ dirs ->
        write_fails w (OsPath.join d GOVERNOR_PATH) = false ->
        result_of (_read_sysfs (OsPath.join d GOVERNOR_PATH))
                  (world_after _restore_governor w)
        = Return name).
Proof.
  intros Hload Hav Hname Hdirs.
  destruct (restore_applies_run w name available dirs Hload Hav Hname Hdirs)
    as (probes & Hp & Hrun).
  assert (events_of _restore_governor w
          = EvLoadConfig :: probes ++ (restore_write w name <$> dirs)) as ->.
  { apply (events_of_log_all _ _ (applied name (writable w dirs) w));
      [by rewrite Hrun|done]. }
  unfold result_of, world_after. rewrite Hrun. cbn [fst snd].
  split; [done|]. split.
  - change (EvLoadConfig :: probes ++ (restore_write w name <$> dirs))
      with ([EvLoadConfig] ++ probes ++ (restore_write w name <$> dirs)).
    rewrite !writes_app, (probes_no_writes _ Hp), writes_restore_writes.
    done.
  - intros d Hd Hok. rewrite read_sysfs_run. cbn [fst]. f_equal.
    apply sysfs_text_written;
      [|by apply (accepted_no_space w name available)].
    cbn [files log_all applied with_files]. rewrite lookup_write_all.
    rewrite bool_decide_eq_true_2; [done|].
    apply list_elem_of_fmap. exists d. split; [done|].
    by apply elem_of_writable.
Qed.


(** X7. When the persisted governor is in the accepted set, the
    restoration attempts one write of it on every enumerated core, in the
    order of enumeration, whether or not earlier writes failed, and
    returns. Each core whose write did not fail then reads back the
    persisted governor. *)
Theorem restore_attempts_every_core (w : World) (name : string)
    (available dirs : list string) :
  result_of _load_saved_governor w = Return (PyStr name) ->
  result_of GetAvailableGovernors w = Return available ->
  name ∈ available ->
  result_of _get_cpu_dirs w = Return dirs ->
  result_of _restore_governor w = Return tt
  /\ writes (events_of _restore_governor w)
     = (fun d => EvWrite (OsPath.join d GOVERNOR_PATH) name
                         (negb (write_fails w (OsPath.join d GOVERNOR_PATH))))
       <$> dirs
  /\ (forall d, d ∈ dirs ->
        write_fails w (OsPath.join d GOVERNOR_PATH) = false ->
        result_of (_read_sysfs (OsPath.join d GOVERNOR_PATH))
                  (world_after _restore_governor w)
        = Return name).
Proof.
  intros Hload Hav Hname Hdirs.
  destruct (restore_applies_facts w name available dirs Hload Hav Hname Hdirs)
    as (Hres & Hwr & Hread).
  split; [exact Hres|]. split; [|exact Hread].
  rewrite Hwr. apply list_fmap_ext. by intros.
Qed.

Lemma restore_attempts_every_core_witness :
  writes (events_of _restore_governor
            (machine (String.eqb cpu0_governor) (saved_config "performance") true))
  = [EvWrite cpu0_governor "performance" false;
     EvWrite cpu1_governor "performance" true].
Proof.
  destruct (restore_attempts_every_core
              (machine (String.eqb cpu0_governor) (saved_config "performance") true)
              "performance" ["performance"; "powersave"; "schedutil"]
              ["/sys/devices/system/cpu/cpu0"; "/sys/devices/system/cpu/cpu1"])
    as (_ & Hwr & _).
  - vm_compute. reflexivity.
  - vm_compute. reflexivity.
  - apply (bool_decide_unpack _). vm_compute. exact I.
  - vm_compute. reflexivity.
  - rewrite Hwr. vm_compute. reflexivity.
Defined.

(** Every run of the restoration, by what it adds to the world. *)
Lemma restore_run_shape (w : World) :
  exists evs fs,
    world_after _restore_governor w = log_all evs (with_files fs w)
    /\ Forall (fun ev => is_restore_event ev = true) evs.
Proof.
  assert (forall probes, Forall (fun ev => is_probe ev = true) probes ->
            Forall (fun ev => is_restore_event ev = true) probes) as Hpr.
  { intros probes Hp. eapply Forall_impl; [exact Hp|]. by intros []. }
  assert (forall w0, with_files (files w0) w0 = w0) as Hid by (by intros []).
  unfold world_after, _restore_governor, bind.
  rewrite load_saved_governor_run.
  destruct (result_of _load_saved_governor w) as [v|e].
  2: { exists [EvLoadConfig], (files w). rewrite Hid. split; [done|].
       by constructor. }
  destruct (negb (truthy v)).
  { exists [EvLoadConfig], (files w). rewrite Hid. split; [done|].
    by constructor. }
  destruct (get_cpu_dirs_probes (log EvLoadConfig w)) as (probes & Hp & ->).
  unfold log. rewrite log_all_app.
  assert (Forall (fun ev => is_restore_event ev = true)
            ([EvLoadConfig] ++ probes)) as Hev.
  { apply Forall_app. split; [by constructor|by apply Hpr]. }
  destruct (result_of _get_cpu_dirs (log_all [EvLoadConfig] w))
    as [[|cpu0 dirs]|e];
    try (exists ([EvLoadConfig] ++ probes), (files w); rewrite Hid;
         by split).
  rewrite read_sysfs_run. cbv iota beta. unfold log. rewrite log_all_app.
  assert (Forall (fun ev => is_restore_event ev = true)
            (([EvLoadConfig] ++ probes)
               ++ [EvRead (OsPath.join cpu0 AVAIL_GOVERNORS_PATH)])) as Hev'.
  { apply Forall_app. split; [done|]. by constructor. }
  destruct (negb (py_in v _)).
  { eexists _, (files w). rewrite Hid. by split. }
  destruct v; try (eexists _, (files w); rewrite Hid; by split).
  rewrite (restore_loop_run s (cpu0 :: dirs)). cbn [snd].
  rewrite applied_log_all, log_all_app.
  eexists _, _. split; [reflexivity|].
  apply Forall_app. split; [done|].
  apply Forall_fmap, Forall_forall. by intros.
Qed.

(** X8. Whatever the record and the machine, the restoration only loads
    the record and probes, reads and writes sysfs: it asks no
    authorization, emits no [GovernorChanged] and never writes the
    record. *)
Theorem restore_only_touches_sysfs (w : World) :
  Forall (fun ev => is_restore_event ev = true) (events_of _restore_governor w)
  /\ List.filter is_auth (events_of _restore_governor w) = []
  /\ (forall g, EvGovernorChanged g ∉ events_of _restore_governor w)
  /\ config (world_after _restore_governor w) = config w.
Proof.
  destruct (restore_run_shape w) as (evs & fs & Hw & Hev).
  assert (events_of _restore_governor w = evs) as ->.
  { by apply (events_of_log_all _ _ (with_files fs w)). }
  rewrite Hw. repeat split; try done.
  - clear Hw. induction Hev as [|e evs He _ IH]; [done|]. simpl.
    rewrite IH. by destruct e.
  - intros g Hg. by apply (proj1 (Forall_forall _ _) Hev) in Hg.
Qed.

(** X9. Start-up completes whenever the record cannot be opened, is
    refused by [json.load] as malformed, or decodes to a JSON object, and
    the cpu directory can be enumerated: a write that fails during the
    restoration never stops the daemon. (On the other records the load
    raises, and so does the start-up.) *)
Theorem daemon_init_completes (w : World) (dirs : list string) :
  config w = CfgUnreadable \/ config w = CfgMalformed
  \/ (exists items, config w = CfgJson (PyDict items)) ->
  result_of _get_cpu_dirs w = Return dirs ->
  result_of daemon_init w = Return tt.
Proof.
  intros Hcfg Hdirs.
  unfold result_of, daemon_init, _restore_governor, bind.
  rewrite load_saved_governor_run, load_saved_governor_result.
  destruct Hcfg as [-> | [-> | (items & ->)]]; try done.
  destruct (negb (truthy _)); [done|].
  destruct (get_cpu_dirs_probes (log EvLoadConfig w)) as (probes & Hp & ->).
  rewrite (get_cpu_dirs_same_files (log EvLoadConfig w) w), Hdirs by done.
  destruct dirs as [|cpu0 dirs]; [done|].
  rewrite read_sysfs_run. cbv iota beta.
  destruct (negb (py_in _ _)); [done|].
  destruct (dict_get items "governor"); try done.
  by rewrite (restore_loop_run s (cpu0 :: dirs)).
Qed.

Lemma daemon_init_completes_witness :
  result_of daemon_init
    (machine (fun _ => true) (saved_config "performance") true)
  = Return tt.
Proof.
  apply (daemon_init_completes _
           ["/sys/devices/system/cpu/cpu0"; "/sys/devices/system/cpu/cpu1"]).
  - right. right. by eexists.
  - vm_compute. reflexivity.
Defined.

(** ** More on [SetGovernor] *)

Lemma writes_write_ok (g : string) (dirs : list string) :
  writes (write_ok g <$> dirs) = write_ok g <$> dirs.
Proof.
  unfold writes. induction dirs as [|d dirs IH]; [done|].
  rewrite fmap_cons. cbn [List.filter].
  change (is_write (write_ok g d)) with true. cbv iota. by rewrite IH.
Qed.

(** A call that returns went all the way through the method. *)
Lemma SetGovernor_returns_inv (w : World) (g s : string) (b : bool) :
  result_of (SetGovernor g s) w = Return b ->
  exists available dirs probes probes',
    result_of GetAvailableGovernors w = Return available
    /\ g ∈ available
    /\ polkit w s POLKIT_ACTION_SET = true
    /\ result_of _get_cpu_dirs w = Return dirs
    /\ Forall (fun c => write_fails w (governor_file c) = false) dirs
    /\ Forall (fun ev => is_probe ev = true) probes
    /\ Forall (fun ev => is_probe ev = true) probes'
    /\ b = true
    /\ SetGovernor g s w
       = (Return true,
          log_all (probes ++ EvCheckAuthorization s POLKIT_ACTION_SET true
                     :: probes' ++ (write_ok g <$> dirs)
                     ++ [EvGovernorChanged g;
                         EvSaveConfig g (negb (config_write_fails w))])
                  (saved g (applied g dirs w))).
Proof.
  intros Hret. rewrite (world_after_result (SetGovernor g s) w).
  destruct (SetGovernor_runs w g s); try congruence.
  exists available, dirs, probes, probes'.
  repeat split; try done. congruence.
Qed.

Lemma SetGovernor_returns_events (w : World) (g s : string)
    (evs : list event) (w0 : World) :
  SetGovernor g s w = (Return true, log_all evs (saved g w0)) ->
  trace w0 = trace w ->
  events_of (SetGovernor g s) w = evs.
Proof.
  intros Hrun Htr. apply (events_of_log_all _ _ (saved g w0)).
  - by rewrite Hrun.
  - by rewrite trace_saved.
Qed.

(** X10. A [SetGovernor g] call that returns has written [g], with
    success, to the governor file of every enumerated core, once each and
    in the order of enumeration; it made no other write, and what it
    returns is [True]. *)
Theorem SetGovernor_writes_every_core (w : World) (g s : string) (b : bool)
    (dirs : list string) :
  result_of (SetGovernor g s) w = Return b ->
  result_of _get_cpu_dirs w = Return dirs ->
  b = true
  /\ writes (events_of (SetGovernor g s) w)
     = (fun d => EvWrite (OsPath.join d GOVERNOR_PATH) g true) <$> dirs.
Proof.
  intros Hret Hdirs.
  destruct (SetGovernor_returns_inv w g s b Hret)
    as (available & dirs' & probes & probes' & Hav & Hg & Hauth & Hdirs'
        & Hall & Hp & Hp' & -> & Hrun).
  assert (dirs' = dirs) as -> by congruence.
  split; [done|].
  rewrite (SetGovernor_returns_events w g s _ _ Hrun) by done.
  pose proof (probes_no_writes _ Hp) as E.
  pose proof (probes_no_writes _ Hp') as E'.
  pose proof (writes_write_ok g dirs) as Ew.
  unfold writes in *. rewrite List.filter_app, E. simpl.
  rewrite !List.filter_app, E', Ew. simpl. by rewrite app_nil_r.
Qed.

Lemma SetGovernor_writes_every_core_witness :
  writes (events_of (SetGovernor "schedutil" ":1.42")
            (machine never (saved_config "powersave") true))
  = [EvWrite cpu0_governor "schedutil" true;
     EvWrite cpu1_governor "schedutil" true].
Proof.
  destruct (SetGovernor_writes_every_core
              (machine never (saved_config "powersave") true)
              "schedutil" ":1.42" true
              ["/sys/devices/system/cpu/cpu0"; "/sys/devices/system/cpu/cpu1"])
    as [_ Hwr].
  - vm_compute. reflexivity.
  - vm_compute. reflexivity.
  - rewrite Hwr. vm_compute. reflexivity.
Defined.

(** The five shapes of a [SetGovernor] trace. *)
Lemma SetGovernor_trace_cases (w : World) (g s : string) :
  let evs := events_of (SetGovernor g s) w in
  let r := result_of (SetGovernor g s) w in
  let w' := world_after (SetGovernor g s) w in
  exists probes,
    Forall (fun ev => is_probe ev = true) probes
    /\ ((evs = probes /\ (exists e, r = Raise e)
         /\ config w' = config w /\ files w' = files w)
        \/ (exists name message,
              evs = probes ++ [EvAuthorityError s POLKIT_ACTION_SET name]
              /\ authority w s POLKIT_ACTION_SET = BusError name message
              /\ r = Raise (DBusException name message)
              /\ config w' = config w /\ files w' = files w)
        \/ (evs = probes ++ [EvCheckAuthorization s POLKIT_ACTION_SET false]
            /\ polkit w s POLKIT_ACTION_SET = false
            /\ r = Raise not_authorized_error
            /\ config w' = config w /\ files w' = files w)
        \/ (exists available done d rest probes',
              result_of GetAvailableGovernors w = Return available
              /\ g ∈ available
              /\ polkit w s POLKIT_ACTION_SET = true
              /\ result_of _get_cpu_dirs w = Return (done ++ d :: rest)
              /\ Forall (fun ev => is_probe ev = true) probes'
              /\ evs = probes ++ EvCheckAuthorization s POLKIT_ACTION_SET true
                         :: probes' ++ (write_ok g <$> done)
                         ++ [EvWrite (governor_file d) g false]
              /\ r = Raise OSError
              /\ config w' = config w)
        \/ (exists available dirs probes',
              result_of GetAvailableGovernors w = Return available
              /\ g ∈ available
              /\ polkit w s POLKIT_ACTION_SET = true
              /\ result_of _get_cpu_dirs w = Return dirs
              /\ Forall (fun ev => is_probe ev = true) probes'
              /\ evs = probes ++ EvCheckAuthorization s POLKIT_ACTION_SET true
                         :: probes' ++ (write_ok g <$> dirs)
                         ++ [EvGovernorChanged g;
                             EvSaveConfig g (negb (config_write_fails w))]
              /\ r = Return true
              /\ w' = log_all evs (saved g (applied g dirs w)))).
Proof.
  intros evs r w'. subst evs r w'.
  pose proof (SetGovernor_runs w g s) as Hrun.
  inversion Hrun as
    [e probes Hav Hp Hr Hw
    |available probes Hav Hg Hp Hr Hw
    |available name message probes Hav Hg Hauth Hp Hr Hw
    |available probes Hav Hg Hauth Hp Hr Hw
    |available fin d rest probes probes' Hav Hg Hauth Hdirs Hdone Hd Hp Hp' Hr Hw
    |available dirs probes probes' Hav Hg Hauth Hdirs Hall Hp Hp' Hr Hw];
    (rewrite (SetGovernor_events w g s _ _ Hw)
       by (rewrite ?trace_saved; reflexivity));
    clear Hrun; exists probes; (split; [done|]).
  - left. repeat split; try done. by eexists.
  - left. repeat split; try done. by eexists.
  - right. left. exists name, message. by repeat split.
  - right. right. left. repeat split; try done. by apply polkit_refused.
  - right. right. right. left.
    exists available, fin, d, rest, probes'. by repeat split.
  - right. right. right. right.
    exists available, dirs, probes'. by repeat split.
Qed.

Lemma elem_of_probes_not (probes : list event) (e : event) :
  Forall (fun ev => is_probe ev = true) probes -> e ∈ probes ->
  is_probe e = true.
Proof. intros Hp He. by apply (proj1 (Forall_forall _ _) Hp). Qed.

(** X11. Whatever the outcome of the call, every write [SetGovernor g]
    makes to sysfs writes [g] itself, to the governor file of a core
    enumerated at the call, after [g] was found in the accepted set and
    the authority granted the action. *)
Theorem SetGovernor_writes_only_accepted (w : World) (g s : string)
    (e : event) :
  e ∈ events_of (SetGovernor g s) w ->
  is_write e = true ->
  exists available dirs d ok,
    result_of GetAvailableGovernors w = Return available
    /\ g ∈ available
    /\ polkit w s POLKIT_ACTION_SET = true
    /\ result_of _get_cpu_dirs w = Return dirs
    /\ d ∈ dirs
    /\ e = EvWrite (OsPath.join d GOVERNOR_PATH) g ok.
Proof.
  intros He Hwrite.
  destruct (SetGovernor_trace_cases w g s) as (probes & Hp & Hcases).
  assert (e ∉ probes) as Hnp.
  { intros Hin. apply (elem_of_probes_not _ _ Hp) in Hin. by destruct e. }
  destruct Hcases as
    [(Hev & _)
    |[(name & message & Hev & _)
    |[(Hev & _)
    |[(available & fin & d & rest & probes' & Hav & Hg & Hauth & Hdirs & Hp'
       & Hev & _)
    |(available & dirs & probes' & Hav & Hg & Hauth & Hdirs & Hp' & Hev & _)]]]];
    rewrite Hev in He.
  - done.
  - apply elem_of_app in He as [He|He]; [done|].
    apply list_elem_of_singleton in He. by subst e.
  - apply elem_of_app in He as [He|He]; [done|].
    apply list_elem_of_singleton in He. by subst e.
  - apply elem_of_app in He as [He|He]; [done|].
    apply elem_of_cons in He as [->|He]; [done|].
    apply elem_of_app in He as [He|He].
    { apply (elem_of_probes_not _ _ Hp') in He. by destruct e. }
    exists available, (fin ++ d :: rest).
    apply elem_of_app in He as [He|He].
    + apply list_elem_of_fmap in He as (c & -> & Hc).
      exists c, true. repeat split; try done.
      apply elem_of_app. by left.
    + apply list_elem_of_singleton in He as ->.
      exists d, false. repeat split; try done.
      apply elem_of_app. right. by left.
  - apply elem_of_app in He as [He|He]; [done|].
    apply elem_of_cons in He as [->|He]; [done|].
    apply elem_of_app in He as [He|He].
    { apply (elem_of_probes_not _ _ Hp') in He. by destruct e. }
    apply elem_of_app in He as [He|He].
    + apply list_elem_of_fmap in He as (c & -> & Hc).
      by exists available, dirs, c, true.
    + apply elem_of_cons in He as [->|He]; [done|].
      apply list_elem_of_singleton in He as ->. done.
Qed.

Lemma SetGovernor_writes_only_accepted_witness :
  exists available dirs d ok,
    result_of GetAvailableGovernors
      (machine (String.eqb cpu1_governor) (saved_config "powersave") true)
    = Return available
    /\ "performance" ∈ available
    /\ polkit (machine (String.eqb cpu1_governor) (saved_config "powersave") true)
              ":1.42" POLKIT_ACTION_SET = true
    /\ result_of _get_cpu_dirs
         (machine (String.eqb cpu1_governor) (saved_config "powersave") true)
       = Return dirs
    /\ d ∈ dirs
    /\ EvWrite cpu1_governor "performance" false
       = EvWrite (OsPath.join d GOVERNOR_PATH) "performance" ok.
Proof.
  apply (SetGovernor_writes_only_accepted
           (machine (String.eqb cpu1_governor) (saved_config "powersave") true)
           "performance" ":1.42").
  - apply (bool_decide_unpack _). vm_compute. exact I.
  - reflexivity.
Defined.

(** X12. [SetGovernor g] emits [GovernorChanged] exactly when it returns,
    and then with [g]. A call that raises leaves the persisted record as
    it was and does not attempt to save. *)
Theorem SetGovernor_signals_iff_returns (w : World) (g s : string) :
  (forall g', EvGovernorChanged g' ∈ events_of (SetGovernor g s) w <->
              g' = g /\ result_of (SetGovernor g s) w = Return true)
  /\ (forall e, result_of (SetGovernor g s) w = Raise e ->
        config (world_after (SetGovernor g s) w) = config w
        /\ forall g' ok, EvSaveConfig g' ok ∉ events_of (SetGovernor g s) w).
Proof.
  destruct (SetGovernor_trace_cases w g s) as (probes & Hp & Hcases).
  assert (forall ev, is_probe ev = false -> ev ∉ probes) as Hnp.
  { intros ev Hev Hin. apply (elem_of_probes_not _ _ Hp) in Hin. congruence. }
  destruct Hcases as
    [(Hev & (e0 & Hr) & Hcfg & _)
    |[(name & message & Hev & _ & Hr & Hcfg & _)
    |[(Hev & _ & Hr & Hcfg & _)
    |[(available & fin & d & rest & probes' & Hav & Hg & Hauth & Hdirs & Hp'
       & Hev & Hr & Hcfg)
    |(available & dirs & probes' & Hav & Hg & Hauth & Hdirs & Hp' & Hev & Hr
      & Hw)]]]];
    rewrite Hev, Hr.
  - split.
    + intros g'. split; [intros Hin; by apply Hnp in Hin|by intros [_ ?]].
    + intros e _. split; [done|]. intros g' ok Hin. by apply Hnp in Hin.
  - split.
    + intros g'. split; [|by intros [_ ?]]. intros Hin.
      apply elem_of_app in Hin as [Hin|Hin]; [by apply Hnp in Hin|].
      by apply list_elem_of_singleton in Hin.
    + intros e _. split; [done|]. intros g' ok Hin.
      apply elem_of_app in Hin as [Hin|Hin]; [by apply Hnp in Hin|].
      by apply list_elem_of_singleton in Hin.
  - split.
    + intros g'. split; [|by intros [_ ?]]. intros Hin.
      apply elem_of_app in Hin as [Hin|Hin]; [by apply Hnp in Hin|].
      by apply list_elem_of_singleton in Hin.
    + intros e _. split; [done|]. intros g' ok Hin.
      apply elem_of_app in Hin as [Hin|Hin]; [by apply Hnp in Hin|].
      by apply list_elem_of_singleton in Hin.
  - assert (forall ev, is_probe ev = false -> is_write ev = false ->
              is_auth ev = false ->
              ev ∉ probes ++ EvCheckAuthorization s POLKIT_ACTION_SET true
                     :: probes' ++ (write_ok g <$> fin)
                     ++ [EvWrite (governor_file d) g false]) as Hno.
    { intros ev H1 H2 H3 Hin.
      apply elem_of_app in Hin as [Hin|Hin]; [by apply Hnp in Hin|].
      apply elem_of_cons in Hin as [->|Hin]; [done|].
      apply elem_of_app in Hin as [Hin|Hin].
      { apply (elem_of_probes_not _ _ Hp') in Hin. congruence. }
      apply elem_of_app in Hin as [Hin|Hin].
      - apply list_elem_of_fmap in Hin as (c & -> & _). done.
      - apply list_elem_of_singleton in Hin as ->. done. }
    split.
    + intros g'. split; [intros Hin; by apply Hno in Hin|by intros [_ ?]].
    + intros e _. split; [done|]. intros g' ok Hin. by apply Hno in Hin.
  - split; [|done]. intros g'. split.
    + intros Hin. split; [|done].
      apply elem_of_app in Hin as [Hin|Hin]; [by apply Hnp in Hin|].
      apply elem_of_cons in Hin as [?|Hin]; [done|].
      apply elem_of_app in Hin as [Hin|Hin].
      { by apply (elem_of_probes_not _ _ Hp') in Hin. }
      apply elem_of_app in Hin as [Hin|Hin].
      { by apply list_elem_of_fmap in Hin as (c & ? & _). }
      apply elem_of_cons in Hin as [Heq|Hin]; [by injection Heq|].
      by apply list_elem_of_singleton in Hin.
    + intros [-> _]. apply elem_of_app. right. right.
      apply elem_of_app. right. apply elem_of_app. right. by left.
Qed.


(** X14. A save that fails does not fail the call: when [g] is accepted,
    the caller authorized and every governor file writable, [SetGovernor g]
    returns [True], has written [g] to every core and emits the signal even
    though writing the record raises. What is left of the record depends
    on where the write failed: the old content when the file could not be
    opened; a truncated text, from which the next load gets [None], when
    the write failed after [open]; the new name when only closing the
    file failed. *)
Theorem SetGovernor_survives_failed_save (w : World) (g s : string)
    (available dirs : list string) :
  config_write_fails w = true ->
  result_of GetAvailableGovernors w = Return available ->
  g ∈ available ->
  polkit w s POLKIT_ACTION_SET = true ->
  result_of _get_cpu_dirs w = Return dirs ->
  Forall (fun d => write_fails w (OsPath.join d GOVERNOR_PATH) = false) dirs ->
  let w' := world_after (SetGovernor g s) w in
  result_of (SetGovernor g s) w = Return true
  /\ writes (events_of (SetGovernor g s) w)
     = (fun d => EvWrite (OsPath.join d GOVERNOR_PATH) g true) <$> dirs
  /\ EvGovernorChanged g ∈ events_of (SetGovernor g s) w
  /\ EvSaveConfig g false ∈ events_of (SetGovernor g s) w
  /\ (config_write w = SaveFailsAtOpen -> config w' = config w)
  /\ (config_write w = SaveFailsAtWrite false ->
      config w' = CfgMalformed
      /\ result_of _load_saved_governor w' = Return PyNone)
  /\ (config_write w = SaveFailsAtWrite true ->
      config w' = saved_config g
      /\ result_of _load_saved_governor w' = Return (PyStr g)).
Proof.
  intros Hcfg Hav Hg Hauth Hdirs Hall w'. subst w'.
  destruct (SetGovernor_trace_cases w g s) as (probes & Hp & Hcases).
  pose proof (SetGovernor_runs w g s) as Hrun.
  assert (result_of (SetGovernor g s) w = Return true) as Hret.
  { apply polkit_granted in Hauth.
    inversion Hrun as
      [e probes0 Hav' Hp0 Hr Hw0
      |available' probes0 Hav' Hg' Hp0 Hr Hw0
      |available' name message probes0 Hav' Hg' Hauth' Hp0 Hr Hw0
      |available' probes0 Hav' Hg' Hauth' Hp0 Hr Hw0
      |available' fin d rest probes0 probes' Hav' Hg' Hauth' Hdirs' Hfin Hd
         Hp0 Hp0' Hr Hw0
      |available' dirs' probes0 probes' Hav' Hg' Hauth' Hdirs' Hall' Hp0 Hp0'
         Hr Hw0];
      try congruence.
    exfalso. rewrite Hdirs in Hdirs'. injection Hdirs' as ->.
    apply Forall_app in Hall as [_ Hall].
    apply Forall_cons in Hall as [Hall _].
    unfold governor_file in Hd. congruence. }
  clear Hrun.
  destruct Hcases as
    [(_ & (e0 & Hr) & _)
    |[(? & ? & _ & _ & Hr & _)
    |[(_ & _ & Hr & _)
    |[(? & ? & ? & ? & ? & _ & _ & _ & _ & _ & _ & Hr & _)
    |(available' & dirs' & probes' & _ & _ & _ & Hdirs' & Hp' & Hev & _ & Hw)]]]];
    try congruence.
  assert (dirs' = dirs) as -> by congruence.
  split; [done|]. rewrite Hw, Hev, Hcfg.
  split; [|split; [|split]].
  - pose proof (probes_no_writes _ Hp) as E.
    pose proof (probes_no_writes _ Hp') as E'.
    pose proof (writes_write_ok g dirs) as Ew.
    unfold writes in *. rewrite List.filter_app, E. simpl.
    rewrite !List.filter_app, E', Ew. simpl. by rewrite app_nil_r.
  - apply elem_of_app. right. right. apply elem_of_app. right.
    apply elem_of_app. right. by left.
  - apply elem_of_app. right. right. apply elem_of_app. right.
    apply elem_of_app. right. right. by left.
  - rewrite !load_saved_governor_result.
    cbn [config log_all]. unfold saved. cbn [config set_config].
    change (config_write (applied g dirs w)) with (config_write w).
    change (config (applied g dirs w)) with (config w).
    split; [|split]; intros ->; done.
Qed.

Lemma SetGovernor_survives_failed_save_witness :
  result_of (SetGovernor "performance" ":1.42") truncating_machine
  = Return true
  /\ config (world_after (SetGovernor "performance" ":1.42") truncating_machine)
     = CfgMalformed.
Proof.
  destruct (SetGovernor_survives_failed_save truncating_machine
              "performance" ":1.42"
              ["performance"; "powersave"; "schedutil"]
              ["/sys/devices/system/cpu/cpu0"; "/sys/devices/system/cpu/cpu1"])
    as (Hres & _ & _ & _ & _ & Hlate & _).
  - reflexivity.
  - vm_compute. reflexivity.
  - apply (bool_decide_unpack _). vm_compute. exact I.
  - reflexivity.
  - vm_compute. reflexivity.
  - apply (bool_decide_unpack _). vm_compute. exact I.
  - destruct Hlate as (Hcfg & _); [reflexivity|].
    split; [exact Hres|exact Hcfg].
Defined.

(** X15. No accepted governor is empty or holds white space, so
    [SetGovernor] refuses the empty string and every name with a space,
    a tab or a line break in it, before asking the authority and without
    a write. *)
Theorem SetGovernor_refuses_malformed_name (w : World) (g s : string)
    (available : list string) :
  result_of GetAvailableGovernors w = Return available ->
  g = "" \/ no_space g = false ->
  (g ∉ available)
  /\ result_of (SetGovernor g s) w
     = Raise (DBusException ERR_INVALID_GOVERNOR
                (invalid_governor_message g available))
  /\ writes (events_of (SetGovernor g s) w) = []
  /\ List.filter is_auth (events_of (SetGovernor g s) w) = [].
Proof.
  intros Hav Hbad.
  assert (g ∉ available) as Hg.
  { intros Hin. pose proof (accepted_no_space w g available Hav Hin) as Hns.
    destruct (accepted_has_core w g available Hav Hin)
      as (cpu0 & rest & _ & ->).
    apply split_no_space in Hin as [_ Hne].
    destruct Hbad as [->|Hsp]; congruence. }
  split; [done|].
  destruct (SetGovernor_invalid_facts w g s available Hav Hg)
    as (Hres & Hwr & Hauth & _).
  done.
Qed.

Lemma SetGovernor_refuses_malformed_name_witness :
  result_of (SetGovernor "power save" ":1.42")
            (machine never (saved_config "powersave") true)
  = Raise (DBusException ERR_INVALID_GOVERNOR
      "Invalid governor: power save. Available: performance, powersave, schedutil").
Proof.
  destruct (SetGovernor_refuses_malformed_name
              (machine never (saved_config "powersave") true)
              "power save" ":1.42" ["performance"; "powersave"; "schedutil"])
    as (_ & Hres & _).
  - vm_compute. reflexivity.
  - right. vm_compute. reflexivity.
  - rewrite Hres. vm_compute. reflexivity.
Defined.

(** ** A restart after a change *)

Lemma append_empty_r (s : string) : s +:+ "" = s.
Proof.
  induction s as [|c s IH]; [done|].
  change (String c s +:+ "") with (String c (s +:+ "")). by rewrite IH.
Qed.

Lemma append_snoc (s t : string) (c : ascii) :
  (s +:+ String c "") +:+ t = s +:+ String c t.
Proof. by rewrite append_assoc. Qed.

Lemma split_go_no_space_run (s cur : string) :
  no_space s = true ->
  PyStr.split_go cur s
  = if PyStr.is_empty (cur +:+ s) then [] else [cur +:+ s].
Proof.
  revert cur. induction s as [|c s IH]; intros cur Hs.
  - simpl. by rewrite append_empty_r.
  - simpl in Hs. apply andb_prop in Hs as [Hc Hs].
    apply negb_true_iff in Hc. simpl. rewrite Hc.
    rewrite (IH _ Hs). by rewrite append_snoc.
Qed.

(** A name without white space splits into itself. *)
Lemma split_single (g : string) :
  no_space g = true -> g <> "" -> PyStr.split g = [g].
Proof.
  intros Hns Hne. unfold PyStr.split. rewrite split_go_no_space_run by done.
  change ("" +:+ g) with g. by destruct g.
Qed.

(** After the governor files of the enumerated cores hold an accepted
    governor, that governor is still accepted. *)
Lemma accepted_after_apply (w : World) (g : string)
    (available dirs : list string) :
  result_of GetAvailableGovernors w = Return available ->
  g ∈ available ->
  result_of _get_cpu_dirs w = Return dirs ->
  exists available',
    result_of GetAvailableGovernors (applied g dirs w) = Return available'
    /\ g ∈ available'.
Proof.
  intros Hav Hg Hdirs.
  destruct (accepted_has_core w g available Hav Hg)
    as (cpu0 & rest & Hdirs' & Havail).
  pose proof (accepted_no_space w g available Hav Hg) as Hns.
  assert (g <> "") as Hne.
  { rewrite Havail in Hg. by apply split_no_space in Hg as [_ ?]. }
  rewrite GetAvailableGovernors_result.
  rewrite (enumerated_after_apply w g dirs Hdirs), Hdirs in *.
  injection Hdirs' as ->. eexists. split; [done|].
  unfold sysfs_text. cbn [files applied with_files].
  rewrite lookup_write_all.
  destruct (bool_decide _).
  - rewrite (universal_newlines_no_space _ Hns), (strip_no_space _ Hns).
    rewrite (split_single g Hns Hne). by left.
  - fold (sysfs_text (files w) (OsPath.join cpu0 AVAIL_GOVERNORS_PATH)).
    by rewrite <- Havail.
Qed.

Lemma restore_writes_all_ok (w1 w : World) (g : string) (dirs : list string) :
  (forall p, write_fails w1 p = write_fails w p) ->
  Forall (fun c => write_fails w (governor_file c) = false) dirs ->
  restore_write w1 g <$> dirs
  = (fun d => EvWrite (OsPath.join d GOVERNOR_PATH) g true) <$> dirs.
Proof.
  intros Hwf Hall. induction Hall as [|d dirs Hd _ IH]; [done|].
  rewrite !fmap_cons, IH. f_equal.
  unfold restore_write. by rewrite Hwf, Hd.
Qed.

(** X16. A restart after a change restores it: after a [SetGovernor g]
    call that returned with none of its writes failed, [_restore_governor]
    returns, writes [g] with success to every enumerated core, and every
    enumerated core then reads back [g]; the record still holds [g]. *)
Theorem restore_after_SetGovernor (w : World) (g s : string) (b : bool)
    (dirs : list string) :
  result_of (SetGovernor g s) w = Return b ->
  Forall (fun ev => is_failure ev = false) (events_of (SetGovernor g s) w) ->
  result_of _get_cpu_dirs w = Return dirs ->
  let w' := world_after (SetGovernor g s) w in
  result_of _restore_governor w' = Return tt
  /\ writes (events_of _restore_governor w')
     = (fun d => EvWrite (OsPath.join d GOVERNOR_PATH) g true) <$> dirs
  /\ (forall d, d ∈ dirs ->
        result_of (_read_sysfs (OsPath.join d GOVERNOR_PATH))
                  (world_after _restore_governor w') = Return g)
  /\ result_of _load_saved_governor (world_after _restore_governor w')
     = Return (PyStr g).
Proof.
  intros Hret Hok Hdirs w'. subst w'.
  destruct (SetGovernor_returns_inv w g s b Hret)
    as (available & dirs' & probes & probes' & Hav & Hg & Hauth & Hdirs'
        & Hall & Hp & Hp' & -> & Hrun).
  assert (dirs' = dirs) as -> by congruence.
  rewrite (SetGovernor_returns_events w g s _ _ Hrun) in Hok by done.
  assert (config_write_fails w = false) as Hcfg.
  { apply Forall_app in Hok as [_ Hok]. apply Forall_cons in Hok as [_ Hok].
    apply Forall_app in Hok as [_ Hok]. apply Forall_app in Hok as [_ Hok].
    apply Forall_cons in Hok as [_ Hok]. apply Forall_cons in Hok as [Hok _].
    simpl in Hok. by destruct (config_write_fails w). }
  remember (world_after (SetGovernor g s) w) as w1 eqn:Hw1.
  unfold world_after in Hw1. rewrite Hrun in Hw1. cbn [snd] in Hw1.
  assert (files w1 = files (applied g dirs w)) as Hfiles.
  { rewrite Hw1. cbn [files log_all]. by rewrite files_saved. }
  assert (cpu_entries w1 = cpu_entries (applied g dirs w)) as Hent.
  { rewrite Hw1. cbn [cpu_entries log_all]. by rewrite cpu_entries_saved. }
  assert (config w1 = saved_config g) as Hsaved.
  { rewrite Hw1. cbn [config log_all]. by apply config_saved. }
  assert (forall p, write_fails w1 p = write_fails w p) as Hwf.
  { intros p. by rewrite Hw1. }
  clear Hw1.
  assert (result_of _get_cpu_dirs w1 = Return dirs) as Hdirs1.
  { rewrite (get_cpu_dirs_same_files w1 (applied g dirs w)) by done.
    by apply enumerated_after_apply. }
  destruct (accepted_after_apply w g available dirs Hav Hg Hdirs)
    as (available' & Hav' & Hg').
  assert (result_of GetAvailableGovernors w1 = Return available') as Hav1.
  { rewrite <- Hav'. rewrite !GetAvailableGovernors_result.
    rewrite (get_cpu_dirs_same_files w1 (applied g dirs w)) by done.
    by rewrite Hfiles. }
  assert (result_of _load_saved_governor w1 = Return (PyStr g)) as Hload.
  { by rewrite load_saved_governor_result, Hsaved. }
  destruct (restore_applies_facts w1 g available' dirs
              Hload Hav1 Hg' Hdirs1) as (Hres & Hwr & Hread).
  split; [done|]. split; [|split].
  - rewrite Hwr. by apply (restore_writes_all_ok w1 w).
  - intros d Hd. apply Hread; [done|]. rewrite Hwf.
    by apply (proj1 (Forall_forall _ _) Hall).
  - rewrite load_saved_governor_result.
    by rewrite restore_keeps_config, Hsaved.
Qed.

Lemma restore_after_SetGovernor_witness :
  writes (events_of _restore_governor
            (world_after (SetGovernor "performance" ":1.42")
                         (machine never (saved_config "powersave") true)))
  = [EvWrite cpu0_governor "performance" true;
     EvWrite cpu1_governor "performance" true].
Proof.
  destruct (restore_after_SetGovernor
              (machine never (saved_config "powersave") true)
              "performance" ":1.42" true
              ["/sys/devices/system/cpu/cpu0"; "/sys/devices/system/cpu/cpu1"])
    as (_ & Hwr & _).
  - vm_compute. reflexivity.
  - apply (bool_decide_unpack _). vm_compute. exact I.
  - vm_compute. reflexivity.
  - rewrite Hwr. vm_compute. reflexivity.
Defined.

(** ** The read-only methods *)

Lemma GetGovernor_run (w : World) :
  exists probes,
    Forall (fun ev => is_probe ev = true) probes
    /\ GetGovernor w
       = (match result_of _get_cpu_dirs w with
          | Return [] => Return "unknown"
          | Return (cpu0 :: _) =>
              Return (sysfs_text (files w) (OsPath.join cpu0 GOVERNOR_PATH))
          | Raise e => Raise e
          end,
          log_all probes w).
Proof.
  unfold GetGovernor, bind.
  destruct (get_cpu_dirs_probes w) as (probes & Hp & ->).
  destruct (result_of _get_cpu_dirs w) as [[|cpu0 dirs]|e];
    try (by exists probes).
  rewrite read_sysfs_run. cbn [files log_all]. unfold log.
  rewrite log_all_app. eexists. split; [|done].
  apply Forall_app. split; [done|]. by constructor.
Qed.

(** X17. [GetGovernor] reports the enumerated core of lowest index: it
    returns the stripped content of that core's governor file, and no
    other enumerated core has a smaller index. *)
Theorem GetGovernor_first_core (w : World) (cpu0 : string)
    (rest : list string) :
  result_of _get_cpu_dirs w = Return (cpu0 :: rest) ->
  result_of GetGovernor w
  = Return (sysfs_text (files w) (OsPath.join cpu0 GOVERNOR_PATH))
  /\ result_of GetGovernor w
     = result_of (_read_sysfs (OsPath.join cpu0 GOVERNOR_PATH)) w
  /\ forall d, d ∈ rest -> index_le cpu0 d.
Proof.
  intros Hdirs. destruct (GetGovernor_run w) as (probes & _ & Hrun).
  unfold result_of at 1 2. rewrite Hrun, Hdirs. cbn [fst].
  split; [done|]. split.
  - unfold result_of. by rewrite read_sysfs_run.
  - apply Forall_forall.
    unfold result_of in Hdirs. rewrite get_cpu_dirs_run in Hdirs.
    destruct (sorted_by _ _) as [sorted|] eqn:Hs; [|done].
    apply sorted_by_spec in Hs as [_ Hs].
    apply (StronglySorted_filter _
             (fun d => bool_decide (is_Some (files w !! governor_file d))))
      in Hs.
    cbn [fst] in Hdirs. injection Hdirs as Hdirs. rewrite Hdirs in Hs.
    by apply StronglySorted_inv in Hs as [_ ?].
Qed.

Lemma GetGovernor_first_core_witness :
  result_of GetGovernor shuffled_machine = Return "schedutil"
  /\ index_le "/sys/devices/system/cpu/cpu0" "/sys/devices/system/cpu/cpu10".
Proof.
  destruct (GetGovernor_first_core shuffled_machine
              "/sys/devices/system/cpu/cpu0"
              ["/sys/devices/system/cpu/cpu2"; "/sys/devices/system/cpu/cpu10"])
    as (Hres & _ & Hle).
  - vm_compute. reflexivity.
  - split.
    + rewrite Hres. vm_compute. reflexivity.
    + apply Hle. apply (bool_decide_unpack _). vm_compute. exact I.
Defined.

(** X18. After a [SetGovernor g] call that returned, [GetGovernor]
    returns [g]. *)
Theorem GetGovernor_after_SetGovernor (w : World) (g s : string) (b : bool) :
  result_of (SetGovernor g s) w = Return b ->
  result_of GetGovernor (world_after (SetGovernor g s) w) = Return g.
Proof.
  intros Hret.
  destruct (SetGovernor_returns_inv w g s b Hret)
    as (available & dirs & probes & probes' & Hav & Hg & Hauth & Hdirs
        & Hall & Hp & Hp' & -> & Hrun).
  remember (world_after (SetGovernor g s) w) as w1 eqn:Hw1.
  unfold world_after in Hw1. rewrite Hrun in Hw1. cbn [snd] in Hw1.
  assert (files w1 = files (applied g dirs w)) as Hfiles.
  { rewrite Hw1. cbn [files log_all]. by rewrite files_saved. }
  assert (cpu_entries w1 = cpu_entries (applied g dirs w)) as Hent.
  { rewrite Hw1. cbn [cpu_entries log_all]. by rewrite cpu_entries_saved. }
  clear Hw1.
  destruct (accepted_has_core w g available Hav Hg)
    as (cpu0 & rest & Hdirs' & _).
  assert (dirs = cpu0 :: rest) as -> by congruence.
  destruct (GetGovernor_run w1) as (probes1 & _ & Hrun1).
  unfold result_of at 1. rewrite Hrun1.
  rewrite (get_cpu_dirs_same_files w1 _ Hent Hfiles).
  rewrite (enumerated_after_apply w g _ Hdirs). cbn [fst]. f_equal.
  apply sysfs_text_written; [|by apply (accepted_no_space w g available)].
  rewrite Hfiles. cbn [files applied with_files]. rewrite lookup_write_all.
  rewrite bool_decide_eq_true_2; [done|].
  rewrite fmap_cons. by left.
Qed.

Lemma GetGovernor_after_SetGovernor_witness :
  result_of GetGovernor
    (world_after (SetGovernor "schedutil" ":1.42")
                 (machine never (saved_config "powersave") true))
  = Return "schedutil".
Proof.
  apply (GetGovernor_after_SetGovernor _ _ _ true).
  vm_compute. reflexivity.
Defined.

(** ** The snapshot, in general *)

Lemma per_core_run (dirs : list string) (w : World) :
  map_M (fun cpu_dir =>
      let name := OsPath.basename cpu_dir in
      core_gov <- _read_sysfs (OsPath.join cpu_dir GOVERNOR_PATH) ;;
      cur_freq <- _read_sysfs (OsPath.join cpu_dir CUR_FREQ_PATH) ;;
      min_freq <- _read_sysfs (OsPath.join cpu_dir MIN_FREQ_PATH) ;;
      max_freq <- _read_sysfs (OsPath.join cpu_dir MAX_FREQ_PATH) ;;
      ret (mkCore name core_gov cur_freq min_freq max_freq)) dirs w
  = (Return (core_of (files w) <$> dirs),
     log_all (concat (core_reads <$> dirs)) w).
Proof.
  revert w. induction dirs as [|d dirs IH]; intros w.
  - simpl. unfold ret. by rewrite log_all_nil.
  - cbn [map_M]. unfold bind at 1. unfold bind at 1.
    rewrite read_sysfs_run. unfold bind at 1. rewrite read_sysfs_run.
    unfold bind at 1. rewrite read_sysfs_run.
    unfold bind at 1. rewrite read_sysfs_run.
    unfold ret at 1. unfold bind at 1. rewrite IH.
    unfold ret, log. rewrite !log_all_app. done.
Qed.

Lemma core_reads_probes (dirs : list string) :
  Forall (fun ev => is_probe ev = true) (concat (core_reads <$> dirs)).
Proof.
  induction dirs as [|d dirs IH]; [done|].
  rewrite fmap_cons. cbn [concat]. apply Forall_app. split; [|done].
  by repeat constructor.
Qed.

(** Every run of [GetCpuInfo]. *)
Lemma GetCpuInfo_run (w : World) :
  exists probes,
    Forall (fun ev => is_probe ev = true) probes
    /\ GetCpuInfo w
       = (match result_of _get_cpu_dirs w with
          | Raise e => Raise e
          | Return dirs =>
              match result_of _get_cpu_model w with
              | Raise e => Raise e
              | Return model =>
                  if (- 2 ^ 31 <=? Z.of_nat (length dirs))
                     && (Z.of_nat (length dirs) <? 2 ^ 31)
                  then Return (mkInfo model (Z.of_nat (length dirs))
                                 (sysfs_text (files w)
                                    (OsPath.join SYSFS_CPU_BASE "online"))
                                 (core_of (files w) <$> dirs))
                  else Raise OverflowError
              end
          end,
          log_all probes w).
Proof.
  unfold GetCpuInfo, bind.
  destruct (get_cpu_dirs_probes w) as (probes & Hp & ->).
  destruct (result_of _get_cpu_dirs w) as [dirs|e]; [|by exists probes].
  rewrite get_cpu_model_run.
  rewrite (get_cpu_model_same_files (log_all probes w) w) by done.
  unfold log. rewrite log_all_app.
  destruct (result_of _get_cpu_model w) as [model|e].
  2: { eexists. split; [|done]. apply Forall_app. split; [done|].
       by constructor. }
  rewrite per_core_run. rewrite log_all_app.
  rewrite read_sysfs_run. unfold log. rewrite log_all_app.
  cbn [files log_all]. unfold dbus_Int32.
  destruct ((- 2 ^ 31 <=? Z.of_nat (length dirs))
            && (Z.of_nat (length dirs) <? 2 ^ 31));
    (eexists; split; [|done]);
    (apply Forall_app; split; [|by constructor]);
    (apply Forall_app; split; [|apply core_reads_probes]);
    (apply Forall_app; split; [done|by constructor]).
Qed.

(** X19. A snapshot [GetCpuInfo] returns is consistent: its core count
    is the length of its per-core list, which has one entry per
    enumerated core, in order, named after the core's directory and
    holding what [_read_sysfs] reads from its four files; and its first
    entry carries the governor [GetGovernor] returns. *)
Theorem GetCpuInfo_consistent (w : World) (info : cpu_info) :
  result_of GetCpuInfo w = Return info ->
  exists dirs,
    result_of _get_cpu_dirs w = Return dirs
    /\ info_core_count info = Z.of_nat (length dirs)
    /\ info_core_count info = Z.of_nat (length (info_per_core info))
    /\ info_per_core info = core_of (files w) <$> dirs
    /\ core_name <$> info_per_core info = OsPath.basename <$> dirs
    /\ match info_per_core info with
       | [] => result_of GetGovernor w = Return "unknown"
       | c :: _ => result_of GetGovernor w = Return (core_governor c)
       end.
Proof.
  intros Hinfo. destruct (GetCpuInfo_run w) as (probes & _ & Hrun).
  unfold result_of at 1 in Hinfo. rewrite Hrun in Hinfo. cbn [fst] in Hinfo.
  destruct (result_of _get_cpu_dirs w) as [dirs|e] eqn:Hdirs; [|done].
  destruct (result_of _get_cpu_model w) as [model|e]; [|done].
  destruct (_ && _); [|done]. injection Hinfo as <-.
  exists dirs. cbn [info_core_count info_per_core].
  split; [done|]. split; [done|]. split; [by rewrite length_fmap|].
  split; [done|]. split.
  - rewrite <- list_fmap_compose. by apply list_fmap_ext.
  - destruct (GetGovernor_run w) as (probes' & _ & Hg).
    rewrite Hdirs in Hg.
    destruct dirs as [|d dirs]; [|rewrite fmap_cons]; cbv iota beta.
    + change (core_of (files w) <$> []) with (@nil core_info). cbv iota.
      unfold result_of. rewrite Hg. done.
    + unfold result_of. rewrite Hg. done.
Qed.

Lemma GetCpuInfo_consistent_witness :
  exists dirs,
    result_of _get_cpu_dirs shuffled_machine = Return dirs
    /\ 3 = Z.of_nat (length dirs)
    /\ core_name
         <$> (core_of (files shuffled_machine)
                <$> ["/sys/devices/system/cpu/cpu0";
                     "/sys/devices/system/cpu/cpu2";
                     "/sys/devices/system/cpu/cpu10"])
       = OsPath.basename <$> dirs.
Proof.
  destruct (GetCpuInfo_consistent shuffled_machine
    (mkInfo "Unknown" 3 ""
       (core_of (files shuffled_machine)
          <$> ["/sys/devices/system/cpu/cpu0"; "/sys/devices/system/cpu/cpu2";
               "/sys/devices/system/cpu/cpu10"])))
    as (dirs & Hdirs & Hcount & _ & _ & Hnames & _).
  - vm_compute. reflexivity.
  - exists dirs. split; [exact Hdirs|]. split; [exact Hcount|exact Hnames].
Defined.

(** X20. The three read-only methods only probe and read sysfs: they
    make no write, ask no authorization, and leave the files and the
    record as they were. *)
Theorem read_only_methods (w : World) :
  (Forall (fun ev => is_probe ev = true) (events_of GetGovernor w)
   /\ files (world_after GetGovernor w) = files w
   /\ config (world_after GetGovernor w) = config w)
  /\ (Forall (fun ev => is_probe ev = true) (events_of GetAvailableGovernors w)
      /\ files (world_after GetAvailableGovernors w) = files w
      /\ config (world_after GetAvailableGovernors w) = config w)
  /\ (Forall (fun ev => is_probe ev = true) (events_of GetCpuInfo w)
      /\ files (world_after GetCpuInfo w) = files w
      /\ config (world_after GetCpuInfo w) = config w).
Proof.
  destruct (GetGovernor_run w) as (p1 & Hp1 & H1).
  destruct (GetAvailableGovernors_probes w) as (p2 & Hp2 & H2).
  destruct (GetCpuInfo_run w) as (p3 & Hp3 & H3).
  repeat split.
  - by rewrite (events_of_log_all GetGovernor w w p1) by (by rewrite ?H1).
  - unfold world_after. by rewrite H1.
  - unfold world_after. by rewrite H1.
  - by rewrite (events_of_log_all GetAvailableGovernors w w p2)
      by (by rewrite ?H2).
  - unfold world_after. by rewrite H2.
  - unfold world_after. by rewrite H2.
  - by rewrite (events_of_log_all GetCpuInfo w w p3) by (by rewrite ?H3).
  - unfold world_after. by rewrite H3.
  - unfold world_after. by rewrite H3.
Qed.

Lemma split_once_no_sep (sep : ascii) (s : string) :
  contains sep s = false -> PyStr.split_once sep s = [s].
Proof.
  induction s as [|c s IH]; [done|]. simpl.
  destruct (Ascii.eqb c sep); [done|]. simpl. intros H. by rewrite (IH H).
Qed.

(** X21. [_get_cpu_model] absorbs a [/proc/cpuinfo] that cannot be read
    and one without a ["model name"] line: both give ["Unknown"]. It
    raises exactly when the first ["model name"] line has no colon, and
    then with [IndexError]. *)
Theorem get_cpu_model_cases (w : World) :
  (files w !! CPU_MODEL_PATH = None ->
   result_of _get_cpu_model w = Return "Unknown")
  /\ (forall content,
        files w !! CPU_MODEL_PATH = Some content ->
        Forall (fun line => PyStr.startswith line "model name" = false)
               (PyStr.lines (PyStr.universal_newlines content)) ->
        result_of _get_cpu_model w = Return "Unknown")
  /\ (forall e,
        result_of _get_cpu_model w = Raise e <->
        e = IndexError
        /\ exists content line,
             files w !! CPU_MODEL_PATH = Some content
             /\ first_model_line
                  (PyStr.lines (PyStr.universal_newlines content)) = Some line
             /\ contains ":" line = false).
Proof.
  unfold result_of, _get_cpu_model, try_except, bind, open_read.
  split; [by intros ->|]. split.
  - intros content -> Hlines.
    assert (first_model_line (PyStr.lines (PyStr.universal_newlines content))
            = None) as ->; [|done].
    unfold first_model_line.
    induction Hlines as [|line ls Hl _ IH]; [done|]. simpl. by rewrite Hl.
  - intros e. destruct (files w !! CPU_MODEL_PATH) as [content|].
    2: { split; [done|]. by intros [_ (? & ? & ? & _)]. }
    destruct (first_model_line _) as [line|] eqn:Hline.
    2: { split; [done|]. intros [_ (? & ? & [= <-] & Hl & _)]. congruence. }
    destruct (contains ":" line) eqn:Hc.
    + destruct (split_once_contains ":" line Hc) as (before & after & ->).
      split; [done|]. intros [_ (? & ? & [= <-] & Hl & Hc')]. congruence.
    + rewrite (split_once_no_sep ":" line Hc). cbn [fst]. split.
      * intros [= <-]. split; [done|]. by exists content, line.
      * by intros [-> _].
Qed.



(** ** What is never written *)

(** X22. Writing then reading a sysfs file: after [_write_sysfs path
    value] succeeded, [_read_sysfs path] returns [value] as text-mode
    reading and [strip] leave it, and every other file reads as before;
    a write that raises changes no file. *)
Theorem write_then_read_sysfs (path value : string) (w : World) :
  (write_fails w path = false ->
   result_of (_write_sysfs path value) w = Return tt
   /\ result_of (_read_sysfs path) (world_after (_write_sysfs path value) w)
      = Return (PyStr.strip (PyStr.universal_newlines value))
   /\ forall other, other <> path ->
        result_of (_read_sysfs other) (world_after (_write_sysfs path value) w)
        = result_of (_read_sysfs other) w)
  /\ (write_fails w path = true ->
      result_of (_write_sysfs path value) w = Raise OSError
      /\ files (world_after (_write_sysfs path value) w) = files w).
Proof.
  unfold result_of, world_after. rewrite write_sysfs_run.
  split; intros ->; cbn [fst snd]; [|done].
  split; [done|]. split.
  - rewrite read_sysfs_run. cbn [fst files log log_all set_file with_files].
    unfold sysfs_text. by rewrite lookup_insert_eq.
  - intros other Hne. rewrite !read_sysfs_run.
    cbn [fst files log log_all set_file with_files].
    unfold sysfs_text. by rewrite lookup_insert_ne.
Qed.

Lemma lookup_write_all_other (paths : list string) (value : string)
    (fs : gmap string string) (q : string) :
  q ∉ paths -> write_all paths value fs !! q = fs !! q.
Proof.
  intros Hq. rewrite lookup_write_all. by rewrite bool_decide_eq_false_2.
Qed.

(** X23. What a [SetGovernor] call leaves alone, whatever its outcome.
    Of the files other than the persisted record at [CONFIG_PATH], it
    changes none but the governor files of the cores enumerated at the
    call, and none at all when the enumeration raises. The record is
    rewritten by a call that returns, as the write of the record goes,
    and is left as it was by a call that raises. *)
Theorem SetGovernor_frame (w : World) (g s : string) (p : string) :
  let w' := world_after (SetGovernor g s) w in
  (p <> CONFIG_PATH ->
   (forall dirs, result_of _get_cpu_dirs w = Return dirs ->
                 p ∉ (fun d => OsPath.join d GOVERNOR_PATH) <$> dirs) ->
   files w' !! p = files w !! p)
  /\ (forall e, result_of _get_cpu_dirs w = Raise e -> files w' = files w)
  /\ (forall e, result_of (SetGovernor g s) w = Raise e -> config w' = config w)
  /\ (forall b, result_of (SetGovernor g s) w = Return b ->
        config w' = record_after_save (config_write w) g (config w)).
Proof.
  intros w'. subst w'.
  pose proof (SetGovernor_runs w g s) as Hrun.
  inversion Hrun as
    [e probes Hav Hp0 Hr Hw
    |available probes Hav Hg Hp0 Hr Hw
    |available name message probes Hav Hg Hauth Hp0 Hr Hw
    |available probes Hav Hg Hauth Hp0 Hr Hw
    |available fin d rest probes probes' Hav Hg Hauth Hdirs' Hfin Hd Hp0 Hp0'
       Hr Hw
    |available dirs' probes probes' Hav Hg Hauth Hdirs' Hall Hp0 Hp0' Hr Hw];
    clear Hrun Hw;
    (split; [|split; [|split]]); try done.
  - intros _ Hp. cbn [files log_all applied with_files].
    apply lookup_write_all_other. intros Hin.
    apply (Hp (fin ++ d :: rest) Hdirs').
    rewrite fmap_app. apply elem_of_app. by left.
  - intros e He. congruence.
  - intros _ Hp. cbn [files log_all]. rewrite ?files_saved.
    cbn [files applied with_files].
    apply lookup_write_all_other. by apply Hp.
  - intros e He. congruence.
Qed.

Lemma SetGovernor_frame_witness :
  files (world_after (SetGovernor "performance" ":1.42")
                     (machine never (saved_config "powersave") true))
    !! cpu0_available
  = Some (nl "performance powersave schedutil")
  /\ config (world_after (SetGovernor "performance" ":1.42")
                         (machine never (saved_config "powersave") false))
     = saved_config "powersave".
Proof.
  destruct (SetGovernor_frame (machine never (saved_config "powersave") true)
              "performance" ":1.42" cpu0_available) as (Hfiles & _).
  destruct (SetGovernor_frame (machine never (saved_config "powersave") false)
              "performance" ":1.42" cpu0_available) as (_ & _ & Hraise & _).
  split.
  - rewrite Hfiles.
    + vm_compute. reflexivity.
    + vm_compute. discriminate.
    + intros dirs Hdirs. vm_compute in Hdirs. injection Hdirs as <-.
      apply (proj1 (bool_decide_eq_false _)). vm_compute. reflexivity.
  - rewrite (Hraise not_authorized_error).
    + reflexivity.
    + vm_compute. reflexivity.
Defined.

(** X24. Whatever the record holds, the restoration changes no file but
    the governor files of the enumerated cores. *)
Theorem restore_frame (w : World) (p : string) :
  (forall dirs, result_of _get_cpu_dirs w = Return dirs ->
                p ∉ (fun d => OsPath.join d GOVERNOR_PATH) <$> dirs) ->
  files (world_after _restore_governor w) !! p = files w !! p.
Proof.
  intros Hp.
  unfold world_after, _restore_governor, bind.
  rewrite load_saved_governor_run.
  destruct (result_of _load_saved_governor w) as [v|e]; [|done].
  destruct (negb (truthy v)); [done|].
  destruct (get_cpu_dirs_probes (log EvLoadConfig w)) as (probes & _ & ->).
  rewrite (get_cpu_dirs_same_files (log EvLoadConfig w) w) by done.
  destruct (result_of _get_cpu_dirs w) as [[|cpu0 dirs]|e] eqn:Hdirs;
    try done.
  rewrite read_sysfs_run. cbv iota beta.
  destruct (negb (py_in v _)); [done|]. destruct v; try done.
  rewrite (restore_loop_run s (cpu0 :: dirs)).
  cbn [snd files log_all applied with_files].
  apply lookup_write_all_other. intros Hin.
  apply (Hp (cpu0 :: dirs) eq_refl).
  apply list_elem_of_fmap in Hin as (d & -> & Hd).
  apply elem_of_writable in Hd as [Hd _].
  apply list_elem_of_fmap. by exists d.
Qed.

Lemma restore_frame_witness :
  files (world_after _restore_governor
           (machine never (saved_config "performance") true))
    !! cpu0_available
  = Some (nl "performance powersave schedutil").
Proof.
  rewrite restore_frame.
  - vm_compute. reflexivity.
  - intros dirs Hdirs. vm_compute in Hdirs. injection Hdirs as <-.
    apply (proj1 (bool_decide_eq_false _)). vm_compute. reflexivity.
Defined.

